(** * PropEase tenant portal: session-gated data fetch and dashboard render

    A shallow embedding of [src/Login.tsx] and [src/Dashboard.tsx] (both are
    concatenated in [src/src/Dashboard.tsx]) and of the slice of the
    browser they run against: JavaScript values with their truthiness and
    string coercion, [localStorage], the router's [navigate], the requests
    handed to axios, the host locale and time zone used by
    [toLocaleString] and [toLocaleDateString], and the element tree a
    React component returns. *)

From stdpp Require Import base gmap strings pretty list.
From Stdlib Require Import ZArith Lia Ascii.

Open Scope Z_scope.
Set Warnings "-register-all".

(* ===================================================================== *)
(** ** JavaScript values *)
(* ===================================================================== *)

Module Js.

(** What a response body, a caught error or an untyped ([any]) state slot
    can hold.  Numbers are the integer-valued ones; fractions, NaN and
    the infinities are outside the fragment. *)
Inductive Value : Type :=
| VUndefined
| VNull
| VBool (b : bool)
| VNum (z : Z)
| VStr (s : string)
| VArr (items : list Value)
| VObj (fields : list (string * Value)).

(** ToBoolean: what [!x], [x ? a : b], [x || y] and [x && y] test. *)
Definition truthy (v : Value) : bool :=
  match v with
  | VUndefined | VNull => false
  | VBool b => b
  | VNum z => negb (z =? 0)
  | VStr s => negb (String.eqb s "")
  | VArr _ | VObj _ => true
  end.

(** The text of a value, for the values whose string coercion succeeds
    ([coerce] below tells when it does not): what a template literal and
    [localStorage.setItem] turn it into.  An array joins its elements
    with commas, printing its null and undefined elements as empty.  A
    number prints its decimal digits, which is what JavaScript prints for
    the integers below 2^53 in magnitude; statements about the text of a
    number keep to those. *)
Fixpoint ToString (v : Value) : string :=
  match v with
  | VUndefined => "undefined"
  | VNull => "null"
  | VBool true => "true"
  | VBool false => "false"
  | VNum z => pretty z
  | VStr s => s
  | VArr items =>
      (fix join (l : list Value) : string :=
         match l with
         | [] => ""
         | x :: rest =>
             let sx := match x with
                       | VUndefined | VNull => ""
                       | _ => ToString x
                       end in
             match rest with
             | [] => sx
             | _ :: _ => sx +:+ "," +:+ join rest
             end
         end) items
  | VObj _ => "[object Object]"
  end.

(** [x || y]. *)
Definition or (x y : Value) : Value := if truthy x then x else y.

(** Strict equality [x === n] against a number literal. *)
Definition strict_eq_num (x : Value) (n : Z) : bool :=
  match x with
  | VNum z => z =? n
  | _ => false
  end.

(** Own property of an object, first entry for the key. *)
Fixpoint own (fields : list (string * Value)) (k : string) : Value :=
  match fields with
  | [] => VUndefined
  | (k', v) :: rest => if String.eqb k' k then v else own rest k
  end.

(** A statement either completes with a value or throws one. *)
Inductive Completion (A : Type) : Type :=
| Normal (a : A)
| Throw (e : Value).
Arguments Normal {A} a.
Arguments Throw {A} e.

Definition TypeError (msg : string) : Value :=
  VObj [("name", VStr "TypeError"); ("message", VStr msg)].

(** Is [k] an own property of the object, whatever its value? *)
Definition has_own (fields : list (string * Value)) (k : string) : bool :=
  existsb (fun kv => String.eqb (fst kv) k) fields.

(** Does [String(v)] throw?  The values here are parsed JSON, whose
    objects hold data only: an own [toString] is not callable, and then
    neither it nor [valueOf] yields a primitive, so the coercion throws;
    without one the inherited [toString] answers.  An array coerces each
    element that is neither null nor undefined. *)
Fixpoint coercion_throws (v : Value) : bool :=
  match v with
  | VObj fields => has_own fields "toString"
  | VArr items =>
      (fix any (l : list Value) : bool :=
         match l with
         | [] => false
         | x :: rest => coercion_throws x || any rest
         end) items
  | _ => false
  end.

(** [String(v)]: the text, or the TypeError of a failed coercion. *)
Definition coerce (v : Value) : Completion string :=
  if coercion_throws v
  then Throw (TypeError "Cannot convert object to primitive value")
  else Normal (ToString v).

(** [v.k] for the property names the portal reads ([response], [data],
    [status], [message], [token], [active_leases]): none of them is an index, [length] or
    a prototype member, so only objects can have them; reading any
    property of [null] or [undefined] throws. *)
Definition Get (v : Value) (k : string) : Completion Value :=
  match v with
  | VUndefined | VNull =>
      Throw (TypeError ("Cannot read properties of " +:+ ToString v))
  | VObj fields => Normal (own fields k)
  | _ => Normal VUndefined
  end.

(** [v?.k]: short-circuits to [undefined] on a nullish base. *)
Definition GetOpt (v : Value) (k : string) : Value :=
  match v with
  | VObj fields => own fields k
  | _ => VUndefined
  end.

(** [Number(x)] on the two shapes [rent_amount] is declared to have.  A
    string converts when it is a plain run of decimal digits with an
    optional minus sign; every other spelling (padding, fractions,
    exponents, text) is outside the fragment and gives [None], which the
    render prints as NaN. *)
Definition digit_val (c : ascii) : option Z :=
  let n := Z.of_nat (nat_of_ascii c) in
  if (48 <=? n) && (n <=? 57) then Some (n - 48) else None.

Fixpoint digits_val (acc : Z) (s : string) : option Z :=
  match s with
  | EmptyString => Some acc
  | String c rest =>
      match digit_val c with
      | Some d => digits_val (10 * acc + d) rest
      | None => None
      end
  end.

Definition StringToNumber (s : string) : option Z :=
  match s with
  | EmptyString => Some 0
  | String "-" (String c rest) => Z.opp <$> digits_val 0 (String c rest)
  | _ => digits_val 0 s
  end.

End Js.

(* ===================================================================== *)
(** ** Host: locale, time zone, number and date formatting *)
(* ===================================================================== *)

Module Host.

(** Default locales of the host for which digit grouping is modelled. *)
Inductive Locale : Type := en_US | en_GB | de_DE | en_IN.

Record Env : Type := {
  (** [import.meta.env.VITE_API_BASE_URL]; [VUndefined] when unset. *)
  VITE_API_BASE_URL : Js.Value;
  (** The default locale, used by [toLocaleString()] without arguments. *)
  defaultLocale : Locale;
  (** Local time minus UTC, in minutes, at the instants formatted. *)
  tzOffsetMinutes : Z
}.

Definition group_separator (l : Locale) : string :=
  match l with
  | en_US | en_GB | en_IN => ","
  | de_DE => "."
  end.

(** Size of the groups to the left of the lowest three digits. *)
Definition secondary_group (l : Locale) : nat :=
  match l with
  | en_IN => 2%nat
  | _ => 3%nat
  end.

(** Walks the digits from the least significant one; [room] is how many
    more digits the current group takes. *)
Fixpoint group_rev (sep : string) (size room : nat) (rev_digits : string)
  : string :=
  match rev_digits with
  | EmptyString => ""
  | String c rest =>
      match room with
      | O => sep +:+ String c (group_rev sep size (size - 1) rest)
      | S room' => String c (group_rev sep size room' rest)
      end
  end.

Definition group_digits (l : Locale) (digits : string) : string :=
  String.rev
    (group_rev (group_separator l) (secondary_group l) 3 (String.rev digits)).

(** [n.toLocaleString()] for an integer [n] in the default locale. *)
Definition Number_toLocaleString (l : Locale) (n : Z) : string :=
  if n <? 0 then "-" +:+ group_digits l (pretty (Z.abs n))
  else group_digits l (pretty n).

(** Days from 1970-01-01 to a proleptic Gregorian date, and back. *)
Definition days_from_civil (y m d : Z) : Z :=
  let y' := if m <=? 2 then y - 1 else y in
  let era := y' / 400 in
  let yoe := y' - era * 400 in
  let mp := if m <=? 2 then m + 9 else m - 3 in
  let doy := (153 * mp + 2) / 5 + d - 1 in
  let doe := yoe * 365 + yoe / 4 - yoe / 100 + doy in
  era * 146097 + doe - 719468.

Definition civil_from_days (z : Z) : Z * Z * Z :=
  let z' := z + 719468 in
  let era := z' / 146097 in
  let doe := z' - era * 146097 in
  let yoe := (doe - doe / 1460 + doe / 36524 - doe / 146096) / 365 in
  let doy := doe - (365 * yoe + yoe / 4 - yoe / 100) in
  let mp := (5 * doy + 2) / 153 in
  let d := doy - (153 * mp + 2) / 5 + 1 in
  let m := if mp <? 10 then mp + 3 else mp - 9 in
  let y := yoe + era * 400 in
  (if m <=? 2 then y + 1 else y, m, d).

Definition is_leap (y : Z) : bool :=
  ((y mod 4 =? 0) && negb (y mod 100 =? 0)) || (y mod 400 =? 0).

Definition days_in_month (y m : Z) : Z :=
  if m =? 2 then (if is_leap y then 29 else 28)
  else if (m =? 4) || (m =? 6) || (m =? 9) || (m =? 11) then 30
  else 31.

Definition msPerDay : Z := 86400000.

(** A [Date]: its time value in milliseconds since the epoch, or the
    invalid date. *)
Inductive Date : Type :=
| TimeValue (ms : Z)
| InvalidDate.

(** [new Date(s)] on the date-only form [YYYY-MM-DD], which is read as
    midnight UTC.  Other spellings and out-of-range fields are parsed
    host by host and are given the invalid date here. *)
Definition Date_parse (s : string) : Date :=
  match s with
  | String y1 (String y2 (String y3 (String y4 (String "-"
      (String m1 (String m2 (String "-"
        (String d1 (String d2 EmptyString))))))))) =>
      match Js.digits_val 0 (String y1 (String y2 (String y3 (String y4 ""))))
            , Js.digits_val 0 (String m1 (String m2 ""))
            , Js.digits_val 0 (String d1 (String d2 "")) with
      | Some y, Some m, Some d =>
          if (1 <=? m) && (m <=? 12) && (1 <=? d) && (d <=? days_in_month y m)
          then TimeValue (days_from_civil y m d * msPerDay)
          else InvalidDate
      | _, _, _ => InvalidDate
      end
  | _ => InvalidDate
  end.

Definition month_name (m : Z) : string :=
  match m with
  | 1 => "January" | 2 => "February" | 3 => "March" | 4 => "April"
  | 5 => "May" | 6 => "June" | 7 => "July" | 8 => "August"
  | 9 => "September" | 10 => "October" | 11 => "November"
  | _ => "December"
  end.

(** The year as the long form prints it: the year of its era, so the
    astronomical year 0 reads 1 and the year before it 2. *)
Definition year_of_era (y : Z) : Z := if y <=? 0 then 1 - y else y.

(** [d.toLocaleDateString('en-GB', { day: 'numeric', month: 'long',
    year: 'numeric' })]: no [timeZone] option is passed, so the calendar
    day is the one of the host's local time. *)
Definition Date_toLocaleDateString_enGB_long (env : Env) (d : Date) : string :=
  match d with
  | InvalidDate => "Invalid Date"
  | TimeValue ms =>
      let local := ms + tzOffsetMinutes env * 60000 in
      let '(y, m, dd) := civil_from_days (local / msPerDay) in
      pretty dd +:+ " " +:+ month_name m +:+ " " +:+ pretty (year_of_era y)
  end.

(** The date-only spelling [YYYY-MM-DD] of a calendar date, the form
    [end_date] travels in. *)
Definition digit_char (n : Z) : ascii := ascii_of_nat (48 + Z.to_nat n).

Definition two_digits (n : Z) : string :=
  String (digit_char (n / 10)) (String (digit_char (n mod 10)) "").

Definition four_digits (n : Z) : string :=
  String (digit_char (n / 1000))
    (String (digit_char (n / 100 mod 10)) (two_digits (n mod 100))).

Definition iso_date (y m d : Z) : string :=
  four_digits y +:+ "-" +:+ two_digits m +:+ "-" +:+ two_digits d.

(** A day that exists in the proleptic Gregorian calendar, in a year of
    the common era that fits four digits. *)
Definition valid_date (y m d : Z) : Prop :=
  1 <= y <= 9999 /\ 1 <= m <= 12 /\ 1 <= d <= days_in_month y m.

(** [civil_from_days] within one 400-year era: the calendar date of day
    [doe] of era [era]. *)
Definition civil_of_doe (era doe : Z) : Z * Z * Z :=
  let yoe := (doe - doe / 1460 + doe / 36524 - doe / 146096) / 365 in
  let doy := doe - (365 * yoe + yoe / 4 - yoe / 100) in
  let mp := (5 * doy + 2) / 153 in
  let d := doy - (153 * mp + 2) / 5 + 1 in
  let m := if mp <? 10 then mp + 3 else mp - 9 in
  let y := yoe + era * 400 in
  (if m <=? 2 then y + 1 else y, m, d).

(** [days_from_civil] within one era: the day of era of a date whose
    March-based year of era is [yoe]. *)
Definition doe_of_civil (yoe m d : Z) : Z :=
  let mp := if m <=? 2 then m + 9 else m - 3 in
  let doy := (153 * mp + 2) / 5 + d - 1 in
  yoe * 365 + yoe / 4 - yoe / 100 + doy.

(** The calendar day before a date. *)
Definition prev_day (y m d : Z) : Z * Z * Z :=
  if 1 <? d then (y, m, d - 1)
  else if m =? 1 then (y - 1, 12, 31)
  else (y, m - 1, days_in_month y (m - 1)).

(** [p] on every integer from 0 up to [n], excluded. *)
Fixpoint all_below (n : nat) (p : Z -> bool) : bool :=
  match n with
  | O => true
  | S k => p (Z.of_nat k) && all_below k p
  end.

(** One era checked day by day: every day of every month of each of its
    400 March-based years lands inside the era and converts back. *)
Definition era_round_trip (yoe m' d' : Z) : bool :=
  let m := m' + 1 in
  let d := d' + 1 in
  let y := if m <=? 2 then yoe + 1 else yoe in
  if d <=? days_in_month y m then
    let doe := doe_of_civil yoe m d in
    (0 <=? doe) && (doe <? 146097)
    && match civil_of_doe 0 doe with
       | (y2, m2, d2) => (y2 =? y) && (m2 =? m) && (d2 =? d)
       end
  else true.

End Host.

(* ===================================================================== *)
(** ** Browser: storage, router, network, and the monad handlers run in *)
(* ===================================================================== *)

Module Browser.

Inductive Method : Type := GET | POST.

(** A request as handed to axios. *)
Record Request : Type := {
  method : Method;
  url : string;
  headers : list (string * string);
  body : Js.Value
}.

(** How a request can fail: no response at all, or a response whose
    status axios rejects. *)
Inductive Failure : Type :=
| NetworkError
| HttpError (status : Z) (data : Js.Value).

(** The settled promise of a request whose success body has type [B]. *)
Inductive Reply (B : Type) : Type :=
| Resolved (data : B)
| Rejected (f : Failure).
Arguments Resolved {B} data.
Arguments Rejected {B} f.

(** The error object axios rejects with: [response] is undefined when no
    response arrived, and carries [status] and [data] otherwise. *)
Definition AxiosError (f : Failure) : Js.Value :=
  match f with
  | NetworkError =>
      Js.VObj [("name", Js.VStr "AxiosError");
               ("message", Js.VStr "Network Error");
               ("response", Js.VUndefined)]
  | HttpError status data =>
      Js.VObj [("name", Js.VStr "AxiosError");
               ("message",
                Js.VStr ("Request failed with status code " +:+ pretty status));
               ("response",
                Js.VObj [("status", Js.VNum status); ("data", data)])]
  end.

(** The HTTP status of a failure, when a response arrived. *)
Definition rejected_status (f : Failure) : option Z :=
  match f with
  | NetworkError => None
  | HttpError status _ => Some status
  end.

(** Everything outside a component that the portal reads or writes.
    Storage is a plain map from keys to strings: quota and access errors
    of [localStorage] are not modelled. *)
Record World : Type := {
  (** [localStorage] *)
  storage : gmap string string;
  (** the router's current path *)
  location : string;
  (** every [navigate(path)] call so far, oldest first *)
  navigations : list string;
  (** every request issued so far, oldest first *)
  network : list Request
}.

(** A computation over the world and a component's state [S] that
    completes or throws. *)
Definition M (S A : Type) : Type := World -> S -> Js.Completion A * World * S.

#[export] Instance M_ret {S} : MRet (M S) :=
  fun A a w s => (Js.Normal a, w, s).

#[export] Instance M_bind {S} : MBind (M S) :=
  fun A B k c w s =>
    match c w s with
    | (Js.Normal a, w', s') => k a w' s'
    | (Js.Throw e, w', s') => (Js.Throw e, w', s')
    end.

Definition throw {S A} (e : Js.Value) : M S A :=
  fun w s => (Js.Throw e, w, s).

Definition lift {S A} (c : Js.Completion A) : M S A :=
  fun w s => (c, w, s).

(** [try { body } catch (err) { handler } finally { cleanup }]: the
    cleanup runs on every path, and a throw of the handler goes on after
    it. *)
Definition try_catch_finally {S A}
    (body : M S A) (handler : Js.Value -> M S A) (cleanup : M S unit) : M S A :=
  fun w s =>
    let r := match body w s with
             | (Js.Normal a, w', s') => (Js.Normal a, w', s')
             | (Js.Throw e, w', s') => handler e w' s'
             end in
    match r with
    | (c, w', s') =>
        match cleanup w' s' with
        | (Js.Normal _, w'', s'') => (c, w'', s'')
        | (Js.Throw e, w'', s'') => (Js.Throw e, w'', s'')
        end
    end.

(** The three parts of a finished run. *)
Definition result_of {S A} (out : Js.Completion A * World * S) : Js.Completion A :=
  out.1.1.
Definition world_of {S A} (out : Js.Completion A * World * S) : World :=
  out.1.2.
Definition state_of {S A} (out : Js.Completion A * World * S) : S :=
  out.2.

Definition get_state {S} : M S S := fun w s => (Js.Normal s, w, s).
Definition modify_state {S} (f : S -> S) : M S unit :=
  fun w s => (Js.Normal tt, w, f s).
Definition modify_world {S} (f : World -> World) : M S unit :=
  fun w s => (Js.Normal tt, f w, s).

(** [localStorage.getItem(key)]: [None] is [null]. *)
Definition localStorage_getItem {S} (key : string) : M S (option string) :=
  fun w s => (Js.Normal (storage w !! key), w, s).

(** The four writes to the world. *)
Definition set_item (key value : string) (w : World) : World :=
  {| storage := <[key := value]> (storage w);
     location := location w;
     navigations := navigations w;
     network := network w |}.

Definition remove_item (key : string) (w : World) : World :=
  {| storage := delete key (storage w);
     location := location w;
     navigations := navigations w;
     network := network w |}.

Definition go (path : string) (w : World) : World :=
  {| storage := storage w;
     location := path;
     navigations := navigations w ++ [path];
     network := network w |}.

Definition record (req : Request) (w : World) : World :=
  {| storage := storage w;
     location := location w;
     navigations := navigations w;
     network := network w ++ [req] |}.

(** [localStorage.setItem(key, value)] stores the string of [value], and
    throws where [value] cannot be made one. *)
Definition localStorage_setItem {S} (key : string) (value : Js.Value) : M S unit :=
  text ← lift (Js.coerce value);
  modify_world (set_item key text).

(** [localStorage.removeItem(key)]. *)
Definition localStorage_removeItem {S} (key : string) : M S unit :=
  modify_world (remove_item key).

(** [navigate(path)] of [useNavigate]. *)
Definition navigate {S} (path : string) : M S unit :=
  modify_world (go path).

(** Handing a request to axios records it; the promise is still pending. *)
Definition send {S} (req : Request) : M S unit :=
  modify_world (record req).

(** What the promise settles to: the body of the response, or a throw of
    the axios error. *)
Definition settled {S B} (reply : Reply B) : M S B :=
  match reply with
  | Resolved data => mret data
  | Rejected f => throw (AxiosError f)
  end.

(** [await axios(...)] inside an async function. *)
Definition axios {S B} (req : Request) (reply : Reply B) : M S B :=
  send req;;
  settled reply.

(** [promise.then(f).catch(g)]: [g] sees a rejection of the promise and a
    throw of [f] alike; what the chain itself settles to is dropped, a
    throw of [g] included. *)
Definition then_catch {S A}
    (promise : M S A) (f : A -> M S unit) (g : Js.Value -> M S unit) : M S unit :=
  fun w s =>
    match (a ← promise; f a) w s with
    | (Js.Normal _, w', s') => (Js.Normal tt, w', s')
    | (Js.Throw e, w', s') =>
        match g e w' s' with
        | (_, w'', s'') => (Js.Normal tt, w'', s'')
        end
    end.

End Browser.

(* ===================================================================== *)
(** ** React: the element tree a component returns *)
(* ===================================================================== *)

Module React.

(** The event handlers the two screens attach. *)
Inductive Action : Type := SubmitLogin | SetEmail | SetPassword | SignOut.

#[export] Instance Action_eq_dec : EqDecision Action.
Proof. solve_decision. Defined.

Inductive PropValue : Type :=
| PStr (s : string)
| PNum (z : Z)
| PBool (b : bool)
| PHandler (a : Action).

(** Elements keep their tag, their props and their children;
    [className] is presentation only and is left out. *)
Inductive Node : Type :=
| Text (s : string)
| Elem (tag : string) (props : list (string * PropValue)) (children : list Node).

(** A JavaScript value in child position: strings and numbers become
    text, booleans, [null] and [undefined] render nothing, arrays render
    their items in order, and a plain object makes React throw. *)
Fixpoint child (v : Js.Value) : Js.Completion (list Node) :=
  match v with
  | Js.VUndefined | Js.VNull | Js.VBool _ => Js.Normal []
  | Js.VNum z => Js.Normal [Text (pretty z)]
  | Js.VStr s => Js.Normal [Text s]
  | Js.VArr items =>
      (fix each (l : list Js.Value) : Js.Completion (list Node) :=
         match l with
         | [] => Js.Normal []
         | x :: rest =>
             match child x, each rest with
             | Js.Normal a, Js.Normal b => Js.Normal (a ++ b)
             | Js.Throw e, _ => Js.Throw e
             | _, Js.Throw e => Js.Throw e
             end
         end) items
  | Js.VObj _ =>
      Js.Throw (Js.TypeError "Objects are not valid as a React child")
  end.

(** The text of a subtree, in document order. *)
Fixpoint textContent (n : Node) : string :=
  match n with
  | Text s => s
  | Elem _ _ children =>
      (fix all (l : list Node) : string :=
         match l with
         | [] => ""
         | c :: rest => textContent c +:+ all rest
         end) children
  end.

Definition has_tag (tag : string) (n : Node) : bool :=
  match n with
  | Elem t _ _ => String.eqb t tag
  | Text _ => false
  end.

(** How many elements of the subtree, the root included, satisfy [p]. *)
Fixpoint count (p : Node -> bool) (n : Node) : nat :=
  ((if p n then 1 else 0) +
   match n with
   | Text _ => 0
   | Elem _ _ children =>
       (fix all (l : list Node) : nat :=
          match l with
          | [] => 0
          | c :: rest => count p c + all rest
          end) children
   end)%nat.

(** Is [a] wired to some handler prop of the element itself? *)
Definition handles (a : Action) (n : Node) : bool :=
  match n with
  | Text _ => false
  | Elem _ props _ =>
      existsb (fun kv => match snd kv with
                         | PHandler b => bool_decide (a = b)
                         | _ => false
                         end) props
  end.

(** A prop of an element by name, first entry for the name. *)
Fixpoint prop (name : string) (props : list (string * PropValue))
  : option PropValue :=
  match props with
  | [] => None
  | (k, v) :: rest => if String.eqb k name then Some v else prop name rest
  end.

(** Does the element itself carry a [key]? *)
Definition has_key (n : Node) : bool :=
  match n with
  | Text _ => false
  | Elem _ props _ =>
      match prop "key" props with
      | Some _ => true
      | None => false
      end
  end.

(** The [key] props of a subtree, in document order. *)
Fixpoint keys (n : Node) : list PropValue :=
  match n with
  | Text _ => []
  | Elem _ props children =>
      match prop "key" props with
      | Some k => [k]
      | None => []
      end
      ++ (fix all (l : list Node) : list PropValue :=
            match l with
            | [] => []
            | c :: rest => keys c ++ all rest
            end) children
  end.

End React.

(* ===================================================================== *)
(** ** Login screen ([Login]) *)
(* ===================================================================== *)

Module Login.
Import Browser React.

(** The four [useState] slots.  [error] is declared [string | null] but
    is assigned from an [any], so it holds a JavaScript value. *)
Record State : Type := {
  email : string;
  password : string;
  error : Js.Value;
  loading : bool
}.

Definition initial : State :=
  {| email := ""; password := ""; error := Js.VNull; loading := false |}.

Definition setEmail (v : string) : M State unit :=
  modify_state (fun s =>
    {| email := v; password := password s; error := error s;
       loading := loading s |}).

Definition setPassword (v : string) : M State unit :=
  modify_state (fun s =>
    {| email := email s; password := v; error := error s;
       loading := loading s |}).

Definition setError (v : Js.Value) : M State unit :=
  modify_state (fun s =>
    {| email := email s; password := password s; error := v;
       loading := loading s |}).

Definition setLoading (b : bool) : M State unit :=
  modify_state (fun s =>
    {| email := email s; password := password s; error := error s;
       loading := b |}).

(** The state a finished submission leaves: the fields as typed, the
    given error, submission enabled again. *)
Definition submitted (st : State) (e : Js.Value) : State :=
  {| email := email st; password := password st; error := e;
     loading := false |}.

Definition fallback_message : string := "Something went wrong.".

(** [axios.post('http://localhost:8000/api/login', { email, password })] *)
Definition login_request (st : State) : Request :=
  {| method := POST;
     url := "http://localhost:8000/api/login";
     headers := [];
     body := Js.VObj [("email", Js.VStr (email st));
                      ("password", Js.VStr (password st))] |}.

(** [err.response?.data?.message] *)
Definition response_message (err : Js.Value) : Js.Completion Js.Value :=
  match Js.Get err "response" with
  | Js.Normal response =>
      Js.Normal (Js.GetOpt (Js.GetOpt response "data") "message")
  | Js.Throw e => Js.Throw e
  end.

(** [handleLogin] up to its [await]: the busy flag is raised, the old
    error dropped and the POST handed to axios.  The fields sent are the
    ones of the render the handler was created in; [e.preventDefault()]
    touches nothing that is modelled.  The state this leaves is what the
    screen shows while the request is in flight. *)
Definition begin : M State unit :=
  st ← get_state;
  setLoading true;;
  setError Js.VNull;;
  send (login_request st).

(** [handleLogin] from its [await] on; [reply] is what the POST settles
    to, its success body being [response.data].  The [try] block has
    been entered before the request was sent, so both a rejection and a
    throw of the lines after the [await] land in [catch]. *)
Definition resume (reply : Reply Js.Value) : M State unit :=
  try_catch_finally
    (data ← settled reply;
     token ← lift (Js.Get data "token");
     localStorage_setItem "token" token;;
     navigate "/dashboard")
    (fun err =>
       message ← lift (response_message err);
       setError (Js.or message (Js.VStr fallback_message)))
    (setLoading false).

(** [handleLogin]: the two halves around the [await]. *)
Definition handleLogin (reply : Reply Js.Value) : M State unit :=
  begin;;
  resume reply.

(** [{error && (<div>{error}</div>)}] *)
Definition error_box (st : State) : Js.Completion (list Node) :=
  if Js.truthy (error st) then
    match child (error st) with
    | Js.Normal c => Js.Normal [Elem "div" [] c]
    | Js.Throw e => Js.Throw e
    end
  else child (error st).

Definition submit_button (st : State) : Node :=
  Elem "button" [("type", PStr "submit"); ("disabled", PBool (loading st))]
    [Text (if loading st then "Signing in..." else "Sign In")].

(** The JSX the component returns. *)
Definition view (st : State) : Js.Completion Node :=
  match error_box st with
  | Js.Throw e => Js.Throw e
  | Js.Normal box =>
      Js.Normal
        (Elem "div" []
           [Elem "div" []
              ([Elem "div" []
                  [Elem "h1" [] [Text "PropEase Portal"];
                   Elem "p" [] [Text "Sign in to manage your lease"]]]
               ++ box ++
               [Elem "form" [("onSubmit", PHandler SubmitLogin)]
                  [Elem "div" []
                     [Elem "label" [] [Text "Email Address"];
                      Elem "input"
                        [("type", PStr "email"); ("required", PBool true);
                         ("value", PStr (email st));
                         ("onChange", PHandler SetEmail)] []];
                   Elem "div" []
                     [Elem "label" [] [Text "Password"];
                      Elem "input"
                        [("type", PStr "password"); ("required", PBool true);
                         ("value", PStr (password st));
                         ("onChange", PHandler SetPassword)] []];
                   submit_button st]])])
  end.

(** [onChange={(e) => setEmail(e.target.value)}] and its password twin,
    then a submit. *)
Definition type_and_submit (e p : string) (reply : Reply Js.Value)
  : M State unit :=
  setEmail e;;
  setPassword p;;
  handleLogin reply.

End Login.

(* ===================================================================== *)
(** ** Dashboard screen ([Dashboard]) *)
(* ===================================================================== *)

Module Dashboard.
Import Browser React.

(** [rent_amount: string | number] *)
Inductive RentAmount : Type :=
| RentString (s : string)
| RentNumber (z : Z).

Record Lease : Type := {
  id : Z;
  unit_name : string;
  rent_amount : RentAmount;
  end_date : string;
  (** [None] is [null] *)
  contract_url : option string
}.

(** [interface TenantData] *)
Record TenantData : Type := {
  tenant_name : string;
  contact_number : string;
  active_leases : list Lease
}.

(** The three [useState] slots. *)
Record State : Type := {
  data : option TenantData;
  loading : bool;
  error : option string
}.

Definition initial : State :=
  {| data := None; loading := true; error := None |}.

Definition setData (d : TenantData) : M State unit :=
  modify_state (fun s =>
    {| data := Some d; loading := loading s; error := error s |}).

Definition setLoading (b : bool) : M State unit :=
  modify_state (fun s =>
    {| data := data s; loading := b; error := error s |}).

Definition setError (msg : string) : M State unit :=
  modify_state (fun s =>
    {| data := data s; loading := loading s; error := Some msg |}).

(** A [string | null] as a JavaScript value. *)
Definition nullable (o : option string) : Js.Value :=
  match o with
  | Some s => Js.VStr s
  | None => Js.VNull
  end.

Definition load_error_message : string :=
  "Could not load data. Ensure your Laravel server is running.".

(** The GET of the effect, with its two headers. *)
Definition dashboard_request (env : Host.Env) (TOKEN : option string) : Request :=
  {| method := GET;
     url := Js.ToString (Host.VITE_API_BASE_URL env) +:+ "/tenant/dashboard";
     headers := [("Accept", "application/json");
                 ("Authorization", "Bearer " +:+ Js.ToString (nullable TOKEN))];
     body := Js.VUndefined |}.

(** [.then(response => ...)]: [d] is [response.data]. *)
Definition on_fulfilled (d : TenantData) : M State unit :=
  setData d;;
  setLoading false.

(** [.catch(err => ...)] *)
Definition on_rejected (err : Js.Value) : M State unit :=
  response ← lift (Js.Get err "response");
  if Js.strict_eq_num (Js.GetOpt response "status") 401 then
    localStorage_removeItem "token";;
    navigate "/"
  else
    setError load_error_message;;
    setLoading false.

(** The body of [useEffect], up to the point where the GET is handed to
    axios.  The result tells whether a request is now pending. *)
Definition effect (env : Host.Env) (TOKEN : option string) : M State bool :=
  if negb (Js.truthy (nullable TOKEN)) then
    navigate "/";;
    mret false
  else
    send (dashboard_request env TOKEN);;
    mret true.

(** The [.then(...).catch(...)] chain, run when the GET settles. *)
Definition settle (reply : Reply TenantData) : M State unit :=
  then_catch (settled reply) on_fulfilled on_rejected.

(** Activating the route mounts the component: the render reads [TOKEN]
    from storage and the effect runs once with it (its dependencies,
    [navigate] and [TOKEN], do not change while the screen stays up). *)
Definition activate (env : Host.Env) : M State bool :=
  TOKEN ← localStorage_getItem "token";
  effect env TOKEN.

(** An activation followed through: when the effect issued the GET, the
    chain runs on its reply. *)
Definition visit (env : Host.Env) (reply : Reply TenantData) : M State unit :=
  pending ← activate env;
  if pending : bool then settle reply else mret tt.

(** A visit of a freshly mounted screen. *)
Definition run (env : Host.Env) (reply : Reply TenantData) (w : World)
  : Js.Completion unit * World * State :=
  visit env reply w initial.

(** The [onClick] of the sign-out button. *)
Definition sign_out : M State unit :=
  localStorage_removeItem "token";;
  navigate "/".

(** [{n} Active {n === 1 ? 'Lease' : 'Leases'}] with
    [n = data.active_leases.length] *)
Definition badge (d : TenantData) : Node :=
  let n := length (active_leases d) in
  Elem "div" []
    [Text (pretty n); Text " Active ";
     Text (if (n =? 1)%nat then "Lease" else "Leases")].

(** [Number(lease.rent_amount)] *)
Definition Number (r : RentAmount) : option Z :=
  match r with
  | RentString s => Js.StringToNumber s
  | RentNumber z => Some z
  end.

(** [AED {Number(lease.rent_amount).toLocaleString()}] *)
Definition rent (env : Host.Env) (l : Lease) : Node :=
  Elem "p" []
    [Text "AED ";
     Text (match Number (rent_amount l) with
           | Some n => Host.Number_toLocaleString (Host.defaultLocale env) n
           | None => "NaN"
           end)].

(** [{new Date(lease.end_date).toLocaleDateString('en-GB', {...})}] *)
Definition expiration (env : Host.Env) (l : Lease) : Node :=
  Elem "p" []
    [Text (Host.Date_toLocaleDateString_enGB_long env
             (Host.Date_parse (end_date l)))].

(** [{lease.contract_url ? <a href=...>...</a> : <span>...</span>}] *)
Definition contract_link (href : string) : Node :=
  Elem "a"
    [("href", PStr href); ("target", PStr "_blank"); ("rel", PStr "noreferrer")]
    [Text "📄 View Signed Contract →"].

Definition no_contract : Node :=
  Elem "span" [] [Text "No contract uploaded"].

Definition contract (l : Lease) : Node :=
  Elem "div" []
    [match contract_url l with
     | Some href =>
         if Js.truthy (Js.VStr href) then contract_link href else no_contract
     | None => no_contract
     end].

(** One card of [data.active_leases.map((lease) => ...)] *)
Definition lease_card (env : Host.Env) (l : Lease) : Node :=
  Elem "div" [("key", PNum (id l))]
    [Elem "div" [] [Elem "h3" [] [Text "📍 Unit: "; Text (unit_name l)]];
     Elem "div" []
       [Elem "div" [] [Elem "p" [] [Text "Annual Rent Amount"]; rent env l];
        Elem "div" []
          [Elem "p" [] [Text "Contract Expiration"];
           expiration env l;
           contract l]]].

Definition sign_out_button : Node :=
  Elem "button" [("onClick", PHandler SignOut)] [Text "Sign Out"].

Definition navbar (d : TenantData) : Node :=
  Elem "nav" []
    [Elem "div" []
       [Elem "div" []
          [Elem "div" []
             [Elem "div" [] [Text "PE"];
              Elem "div" []
                [Elem "h1" [] [Text "PropEase"];
                 Elem "p" [] [Text "Tenant Portal"]]];
           Elem "div" []
             [Elem "div" []
                [Elem "p" [] [Text (tenant_name d)];
                 Elem "p" [] [Text "Logged In"]];
              sign_out_button]]]].

Definition no_leases_notice : Node :=
  Elem "div" []
    [Text "You do not currently have any active leases assigned to your profile."].

Definition main (env : Host.Env) (d : TenantData) : Node :=
  Elem "main" []
    [Elem "header" []
       [Elem "div" []
          [Elem "h2" [] [Text "Your Property Overview"];
           Elem "p" []
             [Text "View your current lease details and important documents."]];
        badge d];
     if (0 <? length (active_leases d))%nat then
       Elem "div" [] (map (lease_card env) (active_leases d))
     else no_leases_notice].

Definition loading_screen : Node :=
  Elem "div" [] [Text "Loading your portal..."].

(** [<div>{error}</div>] *)
Definition error_screen (error : option string) : Node :=
  Elem "div" []
    match error with
    | Some msg => [Text msg]
    | None => []
    end.

(** What the component returns; [None] is [null]. *)
Definition view (env : Host.Env) (st : State) : option Node :=
  if loading st then Some loading_screen
  else if Js.truthy (nullable (error st)) then
    Some (error_screen (error st))
  else
    match data st with
    | None => None
    | Some d => Some (Elem "div" [] [navbar d; main env d])
    end.

(** Telling the two renderings of the contract area apart in a tree. *)
Definition is_contract_link (n : Node) : bool := has_tag "a" n.

Definition is_no_contract (n : Node) : bool :=
  has_tag "span" n && String.eqb (textContent n) "No contract uploaded".

(** The screen's phases, as the three early returns tell them apart. *)
Inductive Phase : Type := Loading | Failed | Loaded | Blank.

Definition phase (st : State) : Phase :=
  if loading st then Loading
  else if Js.truthy (nullable (error st)) then Failed
  else match data st with
       | Some _ => Loaded
       | None => Blank
       end.

(** Can the user trigger [a] from what is on screen? *)
Definition offers (env : Host.Env) (a : Action) (st : State) : bool :=
  match view env st with
  | Some n => (0 <? count (handles a) n)%nat
  | None => false
  end.

(** A click on the sign-out button: nothing happens unless the button is
    on screen. *)
Definition click_sign_out (env : Host.Env) : M State unit :=
  st ← get_state;
  if offers env SignOut st then sign_out else mret tt.

(** A lease card is the element that carries a [key]. *)
Definition is_card (n : Node) : bool := has_key n.

(** The notice shown in place of the cards: a [div] holding just its
    sentence. *)
Definition is_no_leases_notice (n : Node) : bool :=
  match n with
  | Elem tag _ [Text s] =>
      String.eqb tag "div"
      && String.eqb s
           "You do not currently have any active leases assigned to your profile."
  | _ => false
  end.

End Dashboard.

(* ===================================================================== *)
(** ** Dashboard screen, with [response.data] at its run-time type *)
(* ===================================================================== *)

Module DashboardAny.
Import Browser React.

(** [response.data] as it arrives.  The interface [TenantData] is erased
    at run time and line 46 stores the body of any 2xx response: a value
    of the declared shape, or any other value. *)
Inductive Body : Type :=
| Profile (d : Dashboard.TenantData)
| Other (v : Js.Value).

(** The three [useState] slots. *)
Record State : Type := {
  data : option Body;
  loading : bool;
  error : option string
}.

Definition initial : State :=
  {| data := None; loading := true; error := None |}.

Definition setData (b : Body) : M State unit :=
  modify_state (fun s =>
    {| data := Some b; loading := loading s; error := error s |}).

Definition setLoading (b : bool) : M State unit :=
  modify_state (fun s =>
    {| data := data s; loading := b; error := error s |}).

Definition setError (msg : string) : M State unit :=
  modify_state (fun s =>
    {| data := data s; loading := loading s; error := Some msg |}).

(** [.then(response => ...)]: [b] is [response.data], whatever it is. *)
Definition on_fulfilled (b : Body) : M State unit :=
  setData b;;
  setLoading false.

(** [.catch(err => ...)] *)
Definition on_rejected (err : Js.Value) : M State unit :=
  response ← lift (Js.Get err "response");
  if Js.strict_eq_num (Js.GetOpt response "status") 401 then
    localStorage_removeItem "token";;
    navigate "/"
  else
    setError Dashboard.load_error_message;;
    setLoading false.

(** The body of [useEffect], up to the point where the GET is handed to
    axios.  The result tells whether a request is now pending. *)
Definition effect (env : Host.Env) (TOKEN : option string) : M State bool :=
  if negb (Js.truthy (Dashboard.nullable TOKEN)) then
    navigate "/";;
    mret false
  else
    send (Dashboard.dashboard_request env TOKEN);;
    mret true.

(** The [.then(...).catch(...)] chain, run when the GET settles. *)
Definition settle (reply : Reply Body) : M State unit :=
  then_catch (settled reply) on_fulfilled on_rejected.

Definition activate (env : Host.Env) : M State bool :=
  TOKEN ← localStorage_getItem "token";
  effect env TOKEN.

Definition visit (env : Host.Env) (reply : Reply Body) : M State unit :=
  pending ← activate env;
  if pending : bool then settle reply else mret tt.

(** A visit of a freshly mounted screen. *)
Definition run (env : Host.Env) (reply : Reply Body) (w : World)
  : Js.Completion unit * World * State :=
  visit env reply w initial.

(** What one call of the component function does. *)
Inductive Rendered : Type :=
| Shows (n : Node)
| ReturnsNull
| Throws (e : Js.Value)
| PastHeader.

(** The component function from line 64 on.  On a body of the declared
    shape it returns the dashboard.  On any other body it is followed as
    far as the first expression that can throw, the
    [data.active_leases.length] of line 117 ([data.tenant_name] before
    it reads a property of a truthy value, which cannot throw): reading
    [length] throws when [active_leases] is undefined or null; where it
    is anything else, evaluation goes on into lines that are not
    modelled for such a body, which [PastHeader] records. *)
Definition render (env : Host.Env) (st : State) : Rendered :=
  if loading st then Shows Dashboard.loading_screen
  else if Js.truthy (Dashboard.nullable (error st)) then
    Shows (Dashboard.error_screen (error st))
  else
    match data st with
    | None => ReturnsNull
    | Some (Profile d) =>
        Shows (Elem "div" [] [Dashboard.navbar d; Dashboard.main env d])
    | Some (Other v) =>
        if negb (Js.truthy v) then ReturnsNull
        else
          match Js.Get v "active_leases" with
          | Js.Throw e => Throws e
          | Js.Normal leases =>
              match Js.Get leases "length" with
              | Js.Throw e => Throws e
              | Js.Normal _ => PastHeader
              end
          end
    end.

(** The typed screen seen from here. *)
Definition of_typed_reply (reply : Reply Dashboard.TenantData) : Reply Body :=
  match reply with
  | Resolved d => Resolved (Profile d)
  | Rejected f => Rejected f
  end.

Definition of_typed_state (st : Dashboard.State) : State :=
  {| data := match Dashboard.data st with
             | Some d => Some (Profile d)
             | None => None
             end;
     loading := Dashboard.loading st;
     error := Dashboard.error st |}.

End DashboardAny.

(* ===================================================================== *)
(** ** Route table ([App]) *)
(* ===================================================================== *)

Module App.

Inductive Screen : Type := LoginScreen | DashboardScreen.

(** The two [<Route path=... element=... />] entries, in order. *)
Definition routes : list (string * Screen) :=
  [("/", LoginScreen); ("/dashboard", DashboardScreen)].

(** The screen a path is routed to.  Paths are compared as written: the
    router's own normalisation (letter case, trailing slash) is not
    modelled, and the portal only ever navigates to the two paths as
    they are spelled in the table. *)
Fixpoint element (table : list (string * Screen)) (path : string)
  : option Screen :=
  match table with
  | [] => None
  | (p, screen) :: rest =>
      if String.eqb p path then Some screen else element rest path
  end.

End App.

(* ===================================================================== *)
(** ** Scenarios *)
(* ===================================================================== *)

Module Scenario.
Import Browser.

(** A first visit: empty storage, entry route, nothing sent yet. *)
Definition fresh : World :=
  {| storage := ∅; location := "/"; navigations := []; network := [] |}.

(** A signed-in browser standing on the dashboard route. *)
Definition signed_in (token : string) : World :=
  {| storage := {[ "token" := token ]};
     location := "/dashboard";
     navigations := ["/dashboard"];
     network := [] |}.

Definition host (l : Host.Locale) (tz : Z) : Host.Env :=
  {| Host.VITE_API_BASE_URL := Js.VStr "http://localhost:8000/api";
     Host.defaultLocale := l;
     Host.tzOffsetMinutes := tz |}.

(** Dubai, Berlin in winter and New York in winter. *)
Definition dubai : Host.Env := host Host.en_GB 240.
Definition berlin : Host.Env := host Host.de_DE 60.
Definition new_york : Host.Env := host Host.en_US (-300).

(** The lease of the spec's render scenario. *)
Definition lease_A1 : Dashboard.Lease :=
  {| Dashboard.id := 1;
     Dashboard.unit_name := "A1";
     Dashboard.rent_amount := Dashboard.RentString "120000";
     Dashboard.end_date := "2025-12-31";
     Dashboard.contract_url := None |}.

Definition profile_J : Dashboard.TenantData :=
  {| Dashboard.tenant_name := "J";
     Dashboard.contact_number := "555";
     Dashboard.active_leases := [lease_A1] |}.

Definition credentials : Login.State :=
  {| Login.email := "a@b.com"; Login.password := "x";
     Login.error := Js.VNull; Login.loading := false |}.

End Scenario.

(* ===================================================================== *)
(** ** Running the handlers: equations *)
(* ===================================================================== *)

Import Browser.

Example number_grouping_examples :
  Host.Number_toLocaleString Host.en_US 120000 = "120,000"
  /\ Host.Number_toLocaleString Host.en_US 999 = "999"
  /\ Host.Number_toLocaleString Host.en_US 1000 = "1,000"
  /\ Host.Number_toLocaleString Host.en_US (-1234567) = "-1,234,567"
  /\ Host.Number_toLocaleString Host.de_DE 120000 = "120.000"
  /\ Host.Number_toLocaleString Host.en_IN 120000 = "1,20,000".
Proof. repeat split; reflexivity. Qed.

Ltac run_m :=
  cbv [Login.handleLogin Login.begin Login.resume
       Login.setLoading Login.setError
       DashboardAny.run DashboardAny.visit DashboardAny.activate
       DashboardAny.effect DashboardAny.settle DashboardAny.on_fulfilled
       DashboardAny.on_rejected DashboardAny.setData
       DashboardAny.setLoading DashboardAny.setError
       Dashboard.run Dashboard.visit Dashboard.activate Dashboard.effect
       Dashboard.settle Dashboard.on_fulfilled Dashboard.on_rejected
       Dashboard.setData Dashboard.setLoading Dashboard.setError
       Dashboard.sign_out Dashboard.click_sign_out
       try_catch_finally then_catch axios send settled lift throw
       localStorage_getItem localStorage_setItem localStorage_removeItem
       navigate modify_world modify_state get_state
       mbind mret M_bind M_ret result_of world_of state_of fst snd].

(** A stored credential is falsy exactly when the slot is empty or holds
    the empty string. *)
Lemma credential_falsy (o : option string) :
  Js.truthy (Dashboard.nullable o) = false <-> o = None \/ o = Some "".
Proof.
  destruct o as [s|]; simpl.
  - destruct s; simpl; split; intros H; try discriminate; auto.
    destruct H as [H|H]; discriminate.
  - split; auto.
Qed.

Lemma credential_truthy (token : string) :
  token <> "" -> Js.truthy (Dashboard.nullable (Some token)) = true.
Proof. destruct token; simpl; congruence. Qed.

(** The gate, credential missing: one redirect, nothing sent. *)
Lemma activate_missing env w st :
  Js.truthy (Dashboard.nullable (storage w !! "token")) = false ->
  Dashboard.activate env w st = (Js.Normal false, go "/" w, st).
Proof. intros H. run_m. rewrite H. reflexivity. Qed.

(** The gate, credential present: one request, no redirect. *)
Lemma activate_present env w st :
  Js.truthy (Dashboard.nullable (storage w !! "token")) = true ->
  Dashboard.activate env w st =
  (Js.Normal true,
   record (Dashboard.dashboard_request env (storage w !! "token")) w, st).
Proof. intros H. run_m. rewrite H. reflexivity. Qed.

(** The axios error object always has a [response] property to read. *)
Lemma AxiosError_response f :
  Js.Get (AxiosError f) "response" =
  Js.Normal match f with
            | NetworkError => Js.VUndefined
            | HttpError status data =>
                Js.VObj [("status", Js.VNum status); ("data", data)]
            end.
Proof. destruct f; reflexivity. Qed.

(** The chain on a rejection: 401 clears the slot and redirects, anything
    else sets the static message and clears the loading flag. *)
Lemma settle_rejected f w st :
  Dashboard.settle (Rejected f) w st =
  if bool_decide (rejected_status f = Some 401) then
    (Js.Normal tt, go "/" (remove_item "token" w), st)
  else
    (Js.Normal tt, w,
     {| Dashboard.data := Dashboard.data st;
        Dashboard.loading := false;
        Dashboard.error := Some Dashboard.load_error_message |}).
Proof.
  destruct f as [|status body]; [reflexivity|].
  run_m. cbn [Js.Get AxiosError Js.own String.eqb Ascii.eqb Bool.eqb
              Js.GetOpt Js.strict_eq_num rejected_status].
  destruct (Z.eqb_spec status 401) as [->|Hne].
  - reflexivity.
  - rewrite bool_decide_eq_false_2 by congruence. reflexivity.
Qed.

Lemma settle_resolved d w st :
  Dashboard.settle (Resolved d) w st =
  (Js.Normal tt, w,
   {| Dashboard.data := Some d;
      Dashboard.loading := false;
      Dashboard.error := Dashboard.error st |}).
Proof. reflexivity. Qed.

(* ===================================================================== *)
(** ** Session gate *)
(* ===================================================================== *)

(** C1.  Whenever the persisted slot is absent or holds the empty string,
    activating the dashboard redirects to the entry route and sends no
    request, whatever the server would have replied; and for every world
    one activation takes exactly one of the two paths: a redirect with
    nothing sent, or one request with no redirect. *)
Theorem C1_gate_without_credential :
  forall (env : Host.Env) (w : World),
    (storage w !! "token" = None \/ storage w !! "token" = Some "" ->
     forall reply : Reply Dashboard.TenantData,
       let out := Dashboard.run env reply w in
       result_of out = Js.Normal tt
       /\ location (world_of out) = "/"
       /\ navigations (world_of out) = navigations w ++ ["/"]
       /\ network (world_of out) = network w
       /\ storage (world_of out) = storage w
       /\ state_of out = Dashboard.initial)
    /\
    (let gate := Dashboard.activate env w Dashboard.initial in
     (result_of gate = Js.Normal false
      /\ navigations (world_of gate) = navigations w ++ ["/"]
      /\ network (world_of gate) = network w)
     \/
     (result_of gate = Js.Normal true
      /\ navigations (world_of gate) = navigations w
      /\ exists req, network (world_of gate) = network w ++ [req])).
Proof.
  intros env w. split.
  - intros Hslot reply. apply credential_falsy in Hslot.
    unfold Dashboard.run, Dashboard.visit.
    cbv [mbind M_bind]. rewrite (activate_missing env w _ Hslot).
    repeat split.
  - destruct (Js.truthy (Dashboard.nullable (storage w !! "token"))) eqn:Ht.
    + right. rewrite (activate_present env w _ Ht).
      repeat split. eexists. reflexivity.
    + left. rewrite (activate_missing env w _ Ht). repeat split.
Qed.

Lemma C1_gate_without_credential_witness :
  let out := Dashboard.run Scenario.dubai (Resolved Scenario.profile_J)
               Scenario.fresh in
  location (world_of out) = "/" /\ network (world_of out) = [].
Proof.
  destruct (proj1 (C1_gate_without_credential Scenario.dubai Scenario.fresh)
              (or_introl eq_refl) (Resolved Scenario.profile_J))
    as (_ & Hloc & _ & Hnet & _).
  split; [exact Hloc | exact Hnet].
Defined.

(** With a credential in the slot, a visit is the request followed by
    the chain on its reply. *)
Lemma run_with_credential env reply w token :
  storage w !! "token" = Some token -> token <> "" ->
  Dashboard.run env reply w =
  Dashboard.settle reply
    (record (Dashboard.dashboard_request env (Some token)) w)
    Dashboard.initial.
Proof.
  intros Hslot Hne.
  unfold Dashboard.run, Dashboard.visit. cbv [mbind M_bind].
  rewrite activate_present; rewrite Hslot; [reflexivity|].
  apply credential_truthy, Hne.
Qed.

(* ===================================================================== *)
(** ** Dashboard fetch *)
(* ===================================================================== *)

(** C2.  When the dashboard request is rejected with HTTP 401, the
    credential slot is cleared, the route becomes the entry route by a
    single redirect, and no error is set: the error slot stays null and
    the screen still shows the loading text, not an error message. *)
Theorem C2_unauthorized_clears_and_redirects :
  forall (env : Host.Env) (w : World) (token : string) (body : Js.Value),
    storage w !! "token" = Some token ->
    token <> "" ->
    let out := Dashboard.run env (Rejected (HttpError 401 body)) w in
    result_of out = Js.Normal tt
    /\ storage (world_of out) = delete "token" (storage w)
    /\ storage (world_of out) !! "token" = None
    /\ location (world_of out) = "/"
    /\ navigations (world_of out) = navigations w ++ ["/"]
    /\ Dashboard.error (state_of out) = None
    /\ Dashboard.view env (state_of out) = Some Dashboard.loading_screen.
Proof.
  intros env w token body Hslot Hne out. subst out.
  rewrite (run_with_credential _ _ _ _ Hslot Hne), settle_rejected.
  cbn [rejected_status]. rewrite bool_decide_eq_true_2 by reflexivity.
  cbn [result_of world_of state_of fst snd go remove_item record
       storage location navigations network].
  repeat split. apply lookup_delete_eq.
Qed.

Lemma C2_unauthorized_clears_and_redirects_witness :
  let out := Dashboard.run Scenario.dubai (Rejected (HttpError 401 Js.VNull))
               (Scenario.signed_in "abc") in
  storage (world_of out) !! "token" = None
  /\ location (world_of out) = "/".
Proof.
  destruct (C2_unauthorized_clears_and_redirects Scenario.dubai
              (Scenario.signed_in "abc") "abc" Js.VNull)
    as (_ & _ & Hslot & Hloc & _).
  - reflexivity.
  - discriminate.
  - split; [exact Hslot | exact Hloc].
Defined.

(** The untyped screen: its gate and its chain, run. *)
Lemma any_run_cases env reply w :
  DashboardAny.run env reply w =
  if Js.truthy (Dashboard.nullable (storage w !! "token")) then
    DashboardAny.settle reply
      (record (Dashboard.dashboard_request env (storage w !! "token")) w)
      DashboardAny.initial
  else (Js.Normal tt, go "/" w, DashboardAny.initial).
Proof.
  run_m.
  destruct (Js.truthy (Dashboard.nullable (storage w !! "token")));
    reflexivity.
Qed.

Lemma any_run_with_credential env reply w token :
  storage w !! "token" = Some token -> token <> "" ->
  DashboardAny.run env reply w =
  DashboardAny.settle reply
    (record (Dashboard.dashboard_request env (Some token)) w)
    DashboardAny.initial.
Proof.
  intros Hslot Hne. rewrite any_run_cases, Hslot.
  rewrite (credential_truthy _ Hne). reflexivity.
Qed.

Lemma any_settle_rejected f w st :
  DashboardAny.settle (Rejected f) w st =
  if bool_decide (rejected_status f = Some 401) then
    (Js.Normal tt, go "/" (remove_item "token" w), st)
  else
    (Js.Normal tt, w,
     {| DashboardAny.data := DashboardAny.data st;
        DashboardAny.loading := false;
        DashboardAny.error := Some Dashboard.load_error_message |}).
Proof.
  destruct f as [|status body]; [reflexivity|].
  run_m. cbn [Js.Get AxiosError Js.own String.eqb Ascii.eqb Bool.eqb
              Js.GetOpt Js.strict_eq_num rejected_status].
  destruct (Z.eqb_spec status 401) as [->|Hne].
  - reflexivity.
  - rewrite bool_decide_eq_false_2 by congruence. reflexivity.
Qed.

Lemma any_settle_resolved b w st :
  DashboardAny.settle (Resolved b) w st =
  (Js.Normal tt, w,
   {| DashboardAny.data := Some b;
      DashboardAny.loading := false;
      DashboardAny.error := DashboardAny.error st |}).
Proof. reflexivity. Qed.

(** C5 as worded fails: a malformed response that arrives with a 2xx
    status is not a failure to the code.  Line 46 stores its body, no
    error is set, and instead of the static message the component
    returns null (a null body) or throws at line 117 (a body of text). *)
Lemma C5_malformed_2xx_shows_no_error :
  let out := DashboardAny.run Scenario.dubai
               (Resolved (DashboardAny.Other Js.VNull))
               (Scenario.signed_in "abc") in
  let out' := DashboardAny.run Scenario.dubai
                (Resolved (DashboardAny.Other (Js.VStr "<!doctype html>")))
                (Scenario.signed_in "abc") in
  DashboardAny.error (state_of out) = None
  /\ DashboardAny.loading (state_of out) = false
  /\ DashboardAny.render Scenario.dubai (state_of out)
     = DashboardAny.ReturnsNull
  /\ DashboardAny.error (state_of out') = None
  /\ DashboardAny.loading (state_of out') = false
  /\ DashboardAny.render Scenario.dubai (state_of out')
     = DashboardAny.Throws
         (Js.TypeError "Cannot read properties of undefined").
Proof. repeat split. Qed.

(** C5 (amended).  When the dashboard request is rejected in any way
    other than a 401 (no response at all, or a response with another
    rejected status), the error slot is set to the one fixed message,
    which the screen shows instead of the dashboard, the loading flag is
    cleared, the credential and the route are left alone, and the
    request already sent stays the only one.  A 2xx response is never a
    failure: whatever its body, the body is stored as the data, the
    loading flag is cleared and no error is set. *)
Theorem C5_other_failures_show_static_error :
  forall (env : Host.Env) (w : World) (token : string),
    storage w !! "token" = Some token ->
    token <> "" ->
    (forall f : Failure,
        rejected_status f <> Some 401 ->
        let out := DashboardAny.run env (Rejected f) w in
        result_of out = Js.Normal tt
        /\ DashboardAny.error (state_of out)
           = Some "Could not load data. Ensure your Laravel server is running."
        /\ DashboardAny.loading (state_of out) = false
        /\ DashboardAny.data (state_of out) = None
        /\ DashboardAny.render env (state_of out) =
           DashboardAny.Shows
             (React.Elem "div" []
                [React.Text
                   "Could not load data. Ensure your Laravel server is running."])
        /\ network (world_of out) =
           network w ++ [Dashboard.dashboard_request env (Some token)]
        /\ storage (world_of out) = storage w
        /\ navigations (world_of out) = navigations w
        /\ location (world_of out) = location w)
    /\ (forall b : DashboardAny.Body,
          let out := DashboardAny.run env (Resolved b) w in
          result_of out = Js.Normal tt
          /\ DashboardAny.error (state_of out) = None
          /\ DashboardAny.loading (state_of out) = false
          /\ DashboardAny.data (state_of out) = Some b
          /\ network (world_of out) =
             network w ++ [Dashboard.dashboard_request env (Some token)]
          /\ storage (world_of out) = storage w
          /\ navigations (world_of out) = navigations w).
Proof.
  intros env w token Hslot Hne. split.
  - intros f Hstatus out. subst out.
    rewrite (any_run_with_credential _ _ _ _ Hslot Hne), any_settle_rejected.
    rewrite bool_decide_eq_false_2 by exact Hstatus.
    repeat split.
  - intros b out. subst out.
    rewrite (any_run_with_credential _ _ _ _ Hslot Hne), any_settle_resolved.
    repeat split.
Qed.

Lemma C5_other_failures_show_static_error_witness :
  let out := DashboardAny.run Scenario.dubai
               (Rejected (HttpError 500 (Js.VStr "Server Error")))
               (Scenario.signed_in "abc") in
  DashboardAny.error (state_of out)
  = Some "Could not load data. Ensure your Laravel server is running."
  /\ DashboardAny.loading (state_of out) = false
  /\ length (network (world_of out)) = 1%nat.
Proof.
  intros out. subst out.
  destruct (C5_other_failures_show_static_error Scenario.dubai
              (Scenario.signed_in "abc") "abc") as [Hfail _].
  - reflexivity.
  - discriminate.
  - destruct (Hfail (HttpError 500 (Js.VStr "Server Error")))
      as (_ & Herr & Hload & _ & _ & Hnet & _).
    + discriminate.
    + split; [exact Herr|]. split; [exact Hload|]. rewrite Hnet. reflexivity.
Defined.

(* ===================================================================== *)
(** ** Login flow *)
(* ===================================================================== *)

(** A 2xx reply whose body yields [v] for [token]: [v] is stored as a
    string and the dashboard is navigated to, in that order. *)
Lemma handleLogin_resolved data v w st :
  Js.Get data "token" = Js.Normal v ->
  Js.coercion_throws v = false ->
  Login.handleLogin (Resolved data) w st =
  (Js.Normal tt,
   go "/dashboard"
     (set_item "token" (Js.ToString v) (record (Login.login_request st) w)),
   Login.submitted st Js.VNull).
Proof.
  intros Hget Hcoerce. run_m. rewrite Hget. unfold Js.coerce.
  rewrite Hcoerce. reflexivity.
Qed.

(** A 2xx reply whose token cannot be made a string: [setItem] throws
    inside the [try], and the catch block finds no message on the
    TypeError. *)
Lemma handleLogin_uncoercible data v w st :
  Js.Get data "token" = Js.Normal v ->
  Js.coercion_throws v = true ->
  Login.handleLogin (Resolved data) w st =
  (Js.Normal tt, record (Login.login_request st) w,
   Login.submitted st (Js.VStr Login.fallback_message)).
Proof.
  intros Hget Hcoerce. run_m. rewrite Hget. unfold Js.coerce.
  rewrite Hcoerce. reflexivity.
Qed.

(** What the catch block reads off an axios error. *)
Lemma response_message_AxiosError f :
  Login.response_message (AxiosError f) =
  Js.Normal match f with
            | NetworkError => Js.VUndefined
            | HttpError _ data => Js.GetOpt data "message"
            end.
Proof. destruct f; reflexivity. Qed.

(** A rejected POST: the message or the fallback is set, nothing else
    moves. *)
Lemma handleLogin_rejected f w st :
  Login.handleLogin (Rejected f) w st =
  (Js.Normal tt,
   record (Login.login_request st) w,
   Login.submitted st
     (Js.or match f with
            | NetworkError => Js.VUndefined
            | HttpError _ data => Js.GetOpt data "message"
            end
            (Js.VStr Login.fallback_message))).
Proof. run_m. rewrite response_message_AxiosError. reflexivity. Qed.

(** C3 as worded fails: a 2xx body whose token is an object with a
    [toString] entry has a token field, but [setItem] cannot make a
    string of it and throws, so nothing is stored, nothing is navigated
    to, and the fallback error is shown. *)
Lemma C3_token_that_cannot_be_stored :
  let data :=
    Js.VObj [("token", Js.VObj [("toString", Js.VNum 1)])] in
  let out := Login.handleLogin (Resolved data)
               Scenario.fresh Scenario.credentials in
  Js.Get data "token" = Js.Normal (Js.VObj [("toString", Js.VNum 1)])
  /\ storage (world_of out) !! "token" = None
  /\ navigations (world_of out) = []
  /\ location (world_of out) = "/"
  /\ Login.error (state_of out) = Js.VStr "Something went wrong.".
Proof. repeat split. Qed.

(** C3 (amended).  For every 2xx login reply whose token is a string,
    the slot ends up holding exactly that string and the dashboard route
    is navigated to exactly once, with the busy flag cleared and no
    error set.  The same holds, with the token's text stored, for a
    token that is null, a boolean, an integer below 2^53 in magnitude,
    or an object without a [toString] entry.  For an object with one,
    nothing is stored and nothing is navigated to. *)
Theorem C3_login_success_persists_token :
  forall (w : World) (st : Login.State) (data v : Js.Value),
    Js.Get data "token" = Js.Normal v ->
    let out := Login.handleLogin (Resolved data) w st in
    let stored (text : string) :=
      result_of out = Js.Normal tt
      /\ storage (world_of out) = <["token" := text]> (storage w)
      /\ storage (world_of out) !! "token" = Some text
      /\ navigations (world_of out) = navigations w ++ ["/dashboard"]
      /\ location (world_of out) = "/dashboard"
      /\ Login.loading (state_of out) = false
      /\ Login.error (state_of out) = Js.VNull in
    (forall t : string, v = Js.VStr t -> stored t)
    /\ (v = Js.VNull -> stored "null")
    /\ (forall b : bool,
          v = Js.VBool b -> stored (if b then "true" else "false"))
    /\ (forall z : Z,
          v = Js.VNum z -> Z.abs z < 9007199254740992 -> stored (pretty z))
    /\ (forall fields : list (string * Js.Value),
          v = Js.VObj fields -> Js.has_own fields "toString" = false ->
          stored "[object Object]")
    /\ (forall fields : list (string * Js.Value),
          v = Js.VObj fields -> Js.has_own fields "toString" = true ->
          result_of out = Js.Normal tt
          /\ storage (world_of out) = storage w
          /\ navigations (world_of out) = navigations w
          /\ location (world_of out) = location w
          /\ Login.error (state_of out) = Js.VStr "Something went wrong.").
Proof.
  intros w st data v Hget out stored.
  assert (Hstored : Js.coercion_throws v = false -> stored (Js.ToString v)).
  { intros Hcoerce. subst stored out.
    rewrite (handleLogin_resolved _ _ _ _ Hget Hcoerce).
    cbn [result_of world_of state_of fst snd go set_item record
         storage location navigations Login.submitted Login.loading
         Login.error].
    repeat split. apply lookup_insert_eq. }
  split; [intros t ->; apply (Hstored eq_refl)|].
  split; [intros ->; apply (Hstored eq_refl)|].
  split; [intros b ->; destruct b; apply (Hstored eq_refl)|].
  split; [intros z -> _; apply (Hstored eq_refl)|].
  split; [intros fields -> Hown; apply (Hstored Hown)|].
  intros fields -> Hown. subst out.
  rewrite (handleLogin_uncoercible _ _ _ _ Hget Hown). repeat split.
Qed.

Lemma C3_login_success_persists_token_witness :
  let out := Login.handleLogin
               (Resolved (Js.VObj [("token", Js.VStr "abc")]))
               Scenario.fresh Scenario.credentials in
  storage (world_of out) !! "token" = Some "abc"
  /\ navigations (world_of out) = ["/dashboard"]
  /\ location (world_of out) = "/dashboard".
Proof.
  destruct (C3_login_success_persists_token Scenario.fresh
              Scenario.credentials (Js.VObj [("token", Js.VStr "abc")])
              (Js.VStr "abc") eq_refl) as (Hstring & _).
  destruct (Hstring "abc" eq_refl) as (_ & _ & Hslot & Hnav & Hloc & _).
  split; [exact Hslot|]. split; [exact Hnav | exact Hloc].
Defined.

(** C4 as worded fails: a message that is truthy without being a string
    is kept as the error as it is, so the fallback is not used, and what
    the error box then shows is not a message either: for [true] the box
    is empty, and for an object the render of the screen throws. *)
Lemma C4_truthy_message_that_is_no_text :
  let out := Login.handleLogin
               (Rejected (HttpError 422
                            (Js.VObj [("message", Js.VBool true)])))
               Scenario.fresh Scenario.credentials in
  let out' := Login.handleLogin
                (Rejected (HttpError 422
                   (Js.VObj [("message",
                              Js.VObj [("email", Js.VStr "taken")])])))
                Scenario.fresh Scenario.credentials in
  Login.error (state_of out) = Js.VBool true
  /\ Login.error_box (state_of out) = Js.Normal [React.Elem "div" [] []]
  /\ Login.error_box (state_of out)
     <> Js.Normal [React.Elem "div" [] [React.Text "Something went wrong."]]
  /\ Login.error (state_of out') = Js.VObj [("email", Js.VStr "taken")]
  /\ Login.view (state_of out') =
     Js.Throw (Js.TypeError "Objects are not valid as a React child").
Proof. repeat split. discriminate. Qed.

(** C4 (amended).  For every failed login request (no response, or a
    response with a rejected status), nothing is navigated to, the slot
    is untouched and the busy flag is false again.  When the error body
    is an object whose [message] is a non-empty string, that string is
    the error shown; when there is no response, or its body yields no
    truthy [message] (none, null, the empty string, zero, false), the
    fallback text is the error shown; a truthy [message] of any other
    kind is kept as the error as it is. *)
Theorem C4_login_failure_shows_message :
  forall (w : World) (st : Login.State) (f : Failure),
    let out := Login.handleLogin (Rejected f) w st in
    result_of out = Js.Normal tt
    /\ navigations (world_of out) = navigations w
    /\ location (world_of out) = location w
    /\ storage (world_of out) = storage w
    /\ Login.loading (state_of out) = false
    /\ (forall (status : Z) (fields : list (string * Js.Value)) (m : string),
          f = HttpError status (Js.VObj fields) ->
          Js.own fields "message" = Js.VStr m ->
          m <> "" ->
          Login.error (state_of out) = Js.VStr m
          /\ Login.error_box (state_of out) =
             Js.Normal [React.Elem "div" [] [React.Text m]])
    /\ (match f with
        | NetworkError => True
        | HttpError _ data => Js.truthy (Js.GetOpt data "message") = false
        end ->
        Login.error (state_of out) = Js.VStr "Something went wrong."
        /\ Login.error_box (state_of out) =
           Js.Normal
             [React.Elem "div" [] [React.Text "Something went wrong."]])
    /\ (forall (status : Z) (data : Js.Value),
          f = HttpError status data ->
          Js.truthy (Js.GetOpt data "message") = true ->
          Login.error (state_of out) = Js.GetOpt data "message").
Proof.
  intros w st f out. subst out. rewrite handleLogin_rejected.
  cbn [result_of world_of state_of fst snd record Login.submitted
       storage location navigations Login.loading Login.error].
  do 5 (split; [reflexivity|]).
  split; [|split].
  - intros status fields m -> Hmessage Hnonempty.
    cbn [Js.GetOpt]. rewrite Hmessage.
    unfold Login.error_box, Js.or. cbn [Js.truthy Login.error].
    destruct m; [congruence|]. split; reflexivity.
  - intros Hnone.
    assert (Hor : Js.or match f with
                        | NetworkError => Js.VUndefined
                        | HttpError _ data => Js.GetOpt data "message"
                        end (Js.VStr Login.fallback_message)
                  = Js.VStr "Something went wrong.").
    { destruct f; [reflexivity|]. unfold Js.or. rewrite Hnone. reflexivity. }
    unfold Login.error_box. cbn [Login.error]. rewrite Hor.
    split; reflexivity.
  - intros status data -> Htruthy. unfold Js.or. rewrite Htruthy.
    reflexivity.
Qed.

Lemma C4_login_failure_shows_message_witness :
  let out := Login.handleLogin
               (Rejected (HttpError 401
                            (Js.VObj [("message",
                                       Js.VStr "Invalid credentials")])))
               Scenario.fresh Scenario.credentials in
  Login.error (state_of out) = Js.VStr "Invalid credentials"
  /\ Login.loading (state_of out) = false
  /\ navigations (world_of out) = [].
Proof.
  destruct (C4_login_failure_shows_message Scenario.fresh
              Scenario.credentials
              (HttpError 401
                 (Js.VObj [("message", Js.VStr "Invalid credentials")])))
    as (_ & Hnav & _ & _ & Hload & Hmsg & _).
  destruct (Hmsg 401 [("message", Js.VStr "Invalid credentials")]
              "Invalid credentials" eq_refl eq_refl) as [Herr _].
  - discriminate.
  - split; [exact Herr|]. split; [exact Hload | exact Hnav].
Defined.

(** C10.  A 2xx login reply whose body has no token field is still
    handled as a success: the slot is set to the text [undefined], the
    dashboard is navigated to and no error is set; the gate of the
    dashboard then finds that text truthy and sends the profile request
    with it as the bearer credential. *)
Theorem C10_login_without_token_field :
  forall (env : Host.Env) (w : World) (st : Login.State) (data : Js.Value),
    Js.Get data "token" = Js.Normal Js.VUndefined ->
    let login := Login.handleLogin (Resolved data) w st in
    let gate := Dashboard.activate env (world_of login) Dashboard.initial in
    result_of login = Js.Normal tt
    /\ storage (world_of login) !! "token" = Some "undefined"
    /\ navigations (world_of login) = navigations w ++ ["/dashboard"]
    /\ location (world_of login) = "/dashboard"
    /\ Login.error (state_of login) = Js.VNull
    /\ result_of gate = Js.Normal true
    /\ navigations (world_of gate) = navigations (world_of login)
    /\ network (world_of gate) =
       network (world_of login)
       ++ [Dashboard.dashboard_request env (Some "undefined")]
    /\ In ("Authorization", "Bearer undefined")
          (headers (Dashboard.dashboard_request env (Some "undefined"))).
Proof.
  intros env w st data Hget login gate. subst gate login.
  rewrite (handleLogin_resolved _ _ _ _ Hget eq_refl).
  cbn [world_of result_of state_of fst snd Js.ToString].
  assert (Hslot : storage (go "/dashboard" (set_item "token" "undefined"
                     (record (Login.login_request st) w))) !! "token"
                  = Some "undefined").
  { cbn [go set_item record storage]. apply lookup_insert_eq. }
  rewrite activate_present by (rewrite Hslot; reflexivity).
  rewrite Hslot.
  cbn [go set_item record storage location navigations network
       Login.submitted Login.error fst snd].
  repeat split. right. left. reflexivity.
Qed.

Lemma C10_login_without_token_field_witness :
  let login := Login.handleLogin (Resolved (Js.VObj [("ok", Js.VBool true)]))
                 Scenario.fresh Scenario.credentials in
  storage (world_of login) !! "token" = Some "undefined"
  /\ result_of (Dashboard.activate Scenario.dubai (world_of login)
                  Dashboard.initial) = Js.Normal true.
Proof.
  destruct (C10_login_without_token_field Scenario.dubai Scenario.fresh
              Scenario.credentials (Js.VObj [("ok", Js.VBool true)]))
    as (_ & Hslot & _ & _ & _ & Hgate & _).
  - reflexivity.
  - split; [exact Hslot | exact Hgate].
Defined.

(* ===================================================================== *)
(** ** Dashboard render *)
(* ===================================================================== *)

(** Counting in an element is counting in its children, plus the root. *)
Lemma count_Elem p tag props children :
  React.count p (React.Elem tag props children) =
  ((if p (React.Elem tag props children) then 1 else 0)
   + list_sum (map (React.count p) children))%nat.
Proof.
  cbn [React.count]. f_equal.
  induction children as [|c rest IH]; [reflexivity|].
  rewrite IH. reflexivity.
Qed.

(** The contract area of a lease holds the link or the placeholder. *)
Lemma contract_cases l :
  (exists href, Dashboard.contract_url l = Some href /\ href <> ""
                /\ Dashboard.contract l =
                   React.Elem "div" [] [Dashboard.contract_link href])
  \/ ((Dashboard.contract_url l = None \/ Dashboard.contract_url l = Some "")
      /\ Dashboard.contract l = React.Elem "div" [] [Dashboard.no_contract]).
Proof.
  unfold Dashboard.contract.
  destruct (Dashboard.contract_url l) as [[|c href]|].
  - right. split; [right|]; reflexivity.
  - left. exists (String c href). repeat split. discriminate.
  - right. split; [left|]; reflexivity.
Qed.

Lemma card_counts env l :
  (React.count Dashboard.is_contract_link (Dashboard.lease_card env l)
   + React.count Dashboard.is_no_contract (Dashboard.lease_card env l) = 1)%nat.
Proof.
  unfold Dashboard.lease_card.
  destruct (contract_cases l) as [(href & _ & _ & ->)|[_ ->]]; reflexivity.
Qed.

Lemma cards_counts env leases :
  (list_sum (map (React.count Dashboard.is_contract_link)
               (map (Dashboard.lease_card env) leases))
   + list_sum (map (React.count Dashboard.is_no_contract)
                 (map (Dashboard.lease_card env) leases))
   = length leases)%nat.
Proof.
  induction leases as [|l rest IH]; [reflexivity|].
  cbn [map length]. change (list_sum (?x :: ?r)) with (x + list_sum r)%nat.
  pose proof (card_counts env l). lia.
Qed.

(** Over the whole main area the two renderings add up to the number of
    leases. *)
Lemma main_counts env d :
  (React.count Dashboard.is_contract_link (Dashboard.main env d)
   + React.count Dashboard.is_no_contract (Dashboard.main env d)
   = length (Dashboard.active_leases d))%nat.
Proof.
  unfold Dashboard.main.
  destruct (Dashboard.active_leases d) as [|l0 rest].
  - reflexivity.
  - change (0 <? length (l0 :: rest))%nat with true. cbv iota.
    pose proof (cards_counts env (l0 :: rest)) as Hsum.
    rewrite !(count_Elem _ "main").
    cbn [map]. change (list_sum (?x :: ?r)) with (x + list_sum r)%nat.
    rewrite !(count_Elem _ "div" [] (Dashboard.lease_card env l0 :: _)).
    change (map (Dashboard.lease_card env) (l0 :: rest))
      with (Dashboard.lease_card env l0 :: map (Dashboard.lease_card env) rest)
      in Hsum.
    set (A := list_sum (map (React.count Dashboard.is_contract_link) _)) in *.
    set (B := list_sum (map (React.count Dashboard.is_no_contract) _)) in *.
    clearbody A B. cbn [length] in Hsum. simpl. lia.
Qed.

(** C7.  The card of every lease holds exactly one contract area
    rendering: the link, pointing at [contract_url], when that is a
    non-empty string, and the placeholder text when it is null or empty;
    the two counts always add up to one, and over the whole list they add
    up to the number of leases. *)
Theorem C7_contract_link_xor_placeholder :
  forall (env : Host.Env) (l : Dashboard.Lease),
    let links := React.count Dashboard.is_contract_link in
    let placeholders := React.count Dashboard.is_no_contract in
    let card := Dashboard.lease_card env l in
    (links card + placeholders card = 1)%nat
    /\ (forall href : string,
          Dashboard.contract_url l = Some href -> href <> "" ->
          links card = 1%nat /\ placeholders card = 0%nat
          /\ Dashboard.contract l =
             React.Elem "div" []
               [React.Elem "a"
                  [("href", React.PStr href); ("target", React.PStr "_blank");
                   ("rel", React.PStr "noreferrer")]
                  [React.Text "📄 View Signed Contract →"]])
    /\ (Dashboard.contract_url l = None \/ Dashboard.contract_url l = Some "" ->
        links card = 0%nat /\ placeholders card = 1%nat
        /\ Dashboard.contract l =
           React.Elem "div" []
             [React.Elem "span" [] [React.Text "No contract uploaded"]])
    /\ (forall d : Dashboard.TenantData,
          (links (Dashboard.main env d) + placeholders (Dashboard.main env d)
           = length (Dashboard.active_leases d))%nat).
Proof.
  intros env l links placeholders card. subst links placeholders card.
  split; [apply card_counts|]. split; [|split].
  - intros href Hurl Hne. unfold Dashboard.lease_card, Dashboard.contract.
    rewrite Hurl. destruct href; [congruence|]. repeat split.
  - intros Hurl. unfold Dashboard.lease_card, Dashboard.contract.
    destruct Hurl as [-> | ->]; repeat split.
  - apply main_counts.
Qed.

Lemma C7_contract_link_xor_placeholder_witness :
  React.count Dashboard.is_contract_link
    (Dashboard.lease_card Scenario.dubai Scenario.lease_A1) = 0%nat
  /\ React.count Dashboard.is_no_contract
       (Dashboard.lease_card Scenario.dubai Scenario.lease_A1) = 1%nat.
Proof.
  destruct (C7_contract_link_xor_placeholder Scenario.dubai Scenario.lease_A1)
    as (_ & _ & Hnone & _).
  destruct (Hnone (or_introl eq_refl)) as (H0 & H1 & _).
  split; [exact H0 | exact H1].
Defined.

(** C8.  The header badge of every profile reads the number of active
    leases, the word Active, and a unit label that is the singular
    [Lease] exactly when the number is one and the plural [Leases]
    otherwise, zero included; the badge sits in the header of the main
    area. *)
Theorem C8_badge_pluralizes_on_one :
  forall (env : Host.Env) (d : Dashboard.TenantData),
    let n := length (Dashboard.active_leases d) in
    (exists label : string,
        Dashboard.badge d =
        React.Elem "div" []
          [React.Text (pretty n); React.Text " Active "; React.Text label]
        /\ (label = "Lease" <-> n = 1%nat)
        /\ (label = "Leases" <-> n <> 1%nat))
    /\ (n = 1%nat -> React.textContent (Dashboard.badge d) = "1 Active Lease")
    /\ (n = 0%nat -> React.textContent (Dashboard.badge d) = "0 Active Leases")
    /\ (n <> 1%nat ->
        React.textContent (Dashboard.badge d) = pretty n +:+ " Active Leases")
    /\ (exists title body,
          Dashboard.main env d =
          React.Elem "main" []
            [React.Elem "header" [] [title; Dashboard.badge d]; body]).
Proof.
  intros env d n. unfold Dashboard.badge. fold n.
  destruct (Nat.eqb_spec n 1) as [Hone|Hmany].
  - split; [|split; [|split; [|split]]].
    + exists "Lease". split; [reflexivity|]. split; split; intros; try done.
    + intros _. rewrite Hone. reflexivity.
    + intros Hzero. congruence.
    + intros Hne. congruence.
    + unfold Dashboard.main, Dashboard.badge. fold n.
      rewrite (proj2 (Nat.eqb_eq n 1) Hone). eauto.
  - split; [|split; [|split; [|split]]].
    + exists "Leases". split; [reflexivity|]. split; split; intros; try done.
    + intros Hone. congruence.
    + intros Hzero. rewrite Hzero. reflexivity.
    + intros _. reflexivity.
    + unfold Dashboard.main, Dashboard.badge. fold n.
      rewrite (proj2 (Nat.eqb_neq n 1) Hmany). eauto.
Qed.

Lemma C8_badge_pluralizes_on_one_witness :
  React.textContent (Dashboard.badge Scenario.profile_J) = "1 Active Lease".
Proof.
  destruct (C8_badge_pluralizes_on_one Scenario.dubai Scenario.profile_J)
    as (_ & Hone & _).
  exact (Hone eq_refl).
Defined.

(* ===================================================================== *)
(** ** Sign-out *)
(* ===================================================================== *)

(** The handler itself, wherever it is run from. *)
Lemma sign_out_run w st :
  Dashboard.sign_out w st = (Js.Normal tt, go "/" (remove_item "token" w), st).
Proof. reflexivity. Qed.

(** The button is on screen in the loaded phase only. *)
Lemma offers_sign_out env st :
  Dashboard.offers env React.SignOut st = true
  <-> Dashboard.phase st = Dashboard.Loaded.
Proof.
  unfold Dashboard.offers, Dashboard.phase, Dashboard.view.
  destruct st as [[d|] [|] [[|c msg]|]];
    cbn [Dashboard.loading Dashboard.error Dashboard.data];
    split; intros H; try discriminate H; reflexivity.
Qed.

(** C6 as worded fails: the loading screen and the error screen carry no
    sign-out control, and a click there has nothing to act on. *)
Lemma C6_sign_out_missing_while_loading_or_failed :
  Dashboard.phase Dashboard.initial = Dashboard.Loading
  /\ Dashboard.offers Scenario.dubai React.SignOut Dashboard.initial = false
  /\ (let failed :=
        state_of (Dashboard.run Scenario.dubai (Rejected NetworkError)
                    (Scenario.signed_in "abc")) in
      Dashboard.phase failed = Dashboard.Failed
      /\ Dashboard.offers Scenario.dubai React.SignOut failed = false
      /\ Dashboard.click_sign_out Scenario.dubai (Scenario.signed_in "abc")
           failed
         = (Js.Normal tt, Scenario.signed_in "abc", failed)).
Proof. repeat split. Qed.

(** C6 (amended).  The sign-out control is on screen exactly in the
    loaded phase.  Clicked there, it clears the credential slot and
    redirects to the entry route with a single navigation, leaving the
    screen's state alone; the handler does the same whenever it is run. *)
Theorem C6_sign_out_when_loaded :
  forall (env : Host.Env) (w : World) (st : Dashboard.State),
    (Dashboard.offers env React.SignOut st = true
     <-> Dashboard.phase st = Dashboard.Loaded)
    /\ (Dashboard.phase st = Dashboard.Loaded ->
        let out := Dashboard.click_sign_out env w st in
        result_of out = Js.Normal tt
        /\ storage (world_of out) = delete "token" (storage w)
        /\ storage (world_of out) !! "token" = None
        /\ location (world_of out) = "/"
        /\ navigations (world_of out) = navigations w ++ ["/"]
        /\ network (world_of out) = network w
        /\ state_of out = st)
    /\ Dashboard.sign_out w st
       = (Js.Normal tt, go "/" (remove_item "token" w), st).
Proof.
  intros env w st. split; [apply offers_sign_out|]. split; [|reflexivity].
  intros Hloaded out. subst out.
  apply (proj2 (offers_sign_out env st)) in Hloaded.
  unfold Dashboard.click_sign_out, get_state. cbv [mbind M_bind].
  rewrite Hloaded, sign_out_run.
  cbn [result_of world_of state_of fst snd go remove_item
       storage location navigations network].
  repeat split. apply lookup_delete_eq.
Qed.

Lemma C6_sign_out_when_loaded_witness :
  let loaded :=
    state_of (Dashboard.run Scenario.dubai (Resolved Scenario.profile_J)
                (Scenario.signed_in "abc")) in
  let out := Dashboard.click_sign_out Scenario.dubai
               (Scenario.signed_in "abc") loaded in
  storage (world_of out) !! "token" = None /\ location (world_of out) = "/".
Proof.
  intros loaded out.
  destruct (C6_sign_out_when_loaded Scenario.dubai (Scenario.signed_in "abc")
              loaded) as (_ & Hclick & _).
  destruct (Hclick eq_refl) as (_ & _ & Hslot & Hloc & _).
  split; [exact Hslot | exact Hloc].
Defined.

(* ===================================================================== *)
(** ** Rent and date formatting *)
(* ===================================================================== *)

(** East of Greenwich (or on it) midnight UTC is still the same calendar
    day in local time. *)
Lemma local_day_east (days tz : Z) :
  0 <= tz < 1440 ->
  (days * Host.msPerDay + tz * 60000) / Host.msPerDay = days.
Proof.
  intros Htz. unfold Host.msPerDay. symmetry.
  apply Z.div_unique with (r := tz * 60000); lia.
Qed.

(** West of Greenwich it is the evening of the day before. *)
Lemma local_day_west (days tz : Z) :
  -1440 <= tz < 0 ->
  (days * Host.msPerDay + tz * 60000) / Host.msPerDay = days - 1.
Proof.
  intros Htz. unfold Host.msPerDay. symmetry.
  apply Z.div_unique with (r := 86400000 + tz * 60000); lia.
Qed.

(** The date-only string of the scenario is day 20453 of the epoch. *)
Lemma parse_2025_12_31 :
  Host.Date_parse "2025-12-31" = Host.TimeValue (20453 * Host.msPerDay).
Proof. reflexivity. Qed.

Lemma end_of_2025_east env :
  0 <= Host.tzOffsetMinutes env < 1440 ->
  Host.Date_toLocaleDateString_enGB_long env (Host.Date_parse "2025-12-31")
  = "31 December 2025".
Proof.
  intros Htz. rewrite parse_2025_12_31.
  unfold Host.Date_toLocaleDateString_enGB_long.
  rewrite (local_day_east _ _ Htz). reflexivity.
Qed.

Lemma end_of_2025_west env :
  -1440 <= Host.tzOffsetMinutes env < 0 ->
  Host.Date_toLocaleDateString_enGB_long env (Host.Date_parse "2025-12-31")
  = "30 December 2025".
Proof.
  intros Htz. rewrite parse_2025_12_31.
  unfold Host.Date_toLocaleDateString_enGB_long.
  rewrite (local_day_west _ _ Htz). reflexivity.
Qed.

(** C9 as worded fails on hosts it does not name: a German default
    locale groups with a full stop, and a host west of Greenwich prints
    the day before. *)
Lemma C9_render_depends_on_host :
  React.textContent (Dashboard.rent Scenario.berlin Scenario.lease_A1)
  = "AED 120.000"
  /\ React.textContent (Dashboard.rent Scenario.berlin Scenario.lease_A1)
     <> "AED 120,000"
  /\ React.textContent
       (Dashboard.expiration Scenario.new_york Scenario.lease_A1)
     = "30 December 2025"
  /\ React.textContent
       (Dashboard.expiration Scenario.new_york Scenario.lease_A1)
     <> "31 December 2025".
Proof. repeat split; discriminate. Qed.

(** C9 (amended).  On a host whose default locale is en-US or en-GB and
    whose local time is at or ahead of UTC, the lease
    [{id: 1, unit_name: "A1", rent_amount: "120000",
      end_date: "2025-12-31", contract_url: null}]
    renders its rent as [AED 120,000] (the string coerced to the number
    120000 and grouped by thousands), its end date as
    [31 December 2025] and its contract area as
    [No contract uploaded]. *)
Theorem C9_scenario_render :
  forall env : Host.Env,
    Host.defaultLocale env = Host.en_US \/ Host.defaultLocale env = Host.en_GB ->
    0 <= Host.tzOffsetMinutes env < 1440 ->
    Dashboard.Number (Dashboard.rent_amount Scenario.lease_A1) = Some 120000
    /\ React.textContent (Dashboard.rent env Scenario.lease_A1) = "AED 120,000"
    /\ React.textContent (Dashboard.expiration env Scenario.lease_A1)
       = "31 December 2025"
    /\ React.textContent (Dashboard.contract Scenario.lease_A1)
       = "No contract uploaded"
    /\ React.textContent (Dashboard.lease_card env Scenario.lease_A1)
       = "📍 Unit: A1" +:+ "Annual Rent Amount" +:+ "AED 120,000"
         +:+ "Contract Expiration" +:+ "31 December 2025"
         +:+ "No contract uploaded".
Proof.
  intros env Hlocale Htz.
  assert (Hrent : React.textContent (Dashboard.rent env Scenario.lease_A1)
                  = "AED 120,000").
  { unfold Dashboard.rent. destruct Hlocale as [-> | ->]; reflexivity. }
  assert (Hdate : React.textContent
                    (Dashboard.expiration env Scenario.lease_A1)
                  = "31 December 2025").
  { unfold Dashboard.expiration.
    change (Dashboard.end_date Scenario.lease_A1) with "2025-12-31".
    rewrite (end_of_2025_east env Htz). reflexivity. }
  split; [reflexivity|]. split; [exact Hrent|]. split; [exact Hdate|].
  split; [reflexivity|].
  unfold Dashboard.lease_card, Dashboard.rent, Dashboard.expiration.
  change (Dashboard.end_date Scenario.lease_A1) with "2025-12-31".
  rewrite (end_of_2025_east env Htz).
  destruct Hlocale as [-> | ->]; reflexivity.
Qed.

Lemma C9_scenario_render_witness :
  React.textContent (Dashboard.rent Scenario.dubai Scenario.lease_A1)
  = "AED 120,000"
  /\ React.textContent (Dashboard.expiration Scenario.dubai Scenario.lease_A1)
     = "31 December 2025".
Proof.
  destruct (C9_scenario_render Scenario.dubai) as (_ & Hrent & Hdate & _).
  - right. reflexivity.
  - simpl. lia.
  - split; [exact Hrent | exact Hdate].
Defined.

(* ===================================================================== *)
(** ** Login flow: every reply *)
(* ===================================================================== *)

(** Reading [token] off a body either yields a value or, on [null] and
    [undefined], throws. *)
Lemma Get_token_cases data :
  (exists v, Js.Get data "token" = Js.Normal v)
  \/ ((data = Js.VNull \/ data = Js.VUndefined)
      /\ exists e, Js.Get data "token" = Js.Throw e
                   /\ Login.response_message e = Js.Normal Js.VUndefined).
Proof.
  destruct data; try (left; eexists; reflexivity);
    right; (split; [auto|]); eexists; split; reflexivity.
Qed.

(** A 2xx reply whose body cannot be read: the throw lands in the catch
    block, which finds no message on it. *)
Lemma handleLogin_unreadable data e w st :
  Js.Get data "token" = Js.Throw e ->
  Login.response_message e = Js.Normal Js.VUndefined ->
  Login.handleLogin (Resolved data) w st =
  (Js.Normal tt, record (Login.login_request st) w,
   Login.submitted st (Js.VStr Login.fallback_message)).
Proof. intros Hget Hmsg. run_m. rewrite Hget, Hmsg. reflexivity. Qed.

(** A 2xx reply either signs in, storing the text of its token, or
    fails inside the [try] (no body to read, or a token that cannot be
    made a string) and shows the fallback. *)
Lemma handleLogin_2xx data w st :
  (exists v,
      Js.Get data "token" = Js.Normal v
      /\ Js.coercion_throws v = false
      /\ Login.handleLogin (Resolved data) w st =
         (Js.Normal tt,
          go "/dashboard"
            (set_item "token" (Js.ToString v)
               (record (Login.login_request st) w)),
          Login.submitted st Js.VNull))
  \/ Login.handleLogin (Resolved data) w st =
     (Js.Normal tt, record (Login.login_request st) w,
      Login.submitted st (Js.VStr Login.fallback_message)).
Proof.
  destruct (Get_token_cases data) as [[v Hv]|[_ (e & He & Hmsg)]].
  - destruct (Js.coercion_throws v) eqn:Hcoerce.
    + right. apply (handleLogin_uncoercible _ _ _ _ Hv Hcoerce).
    + left. exists v. split; [exact Hv|]. split; [exact Hcoerce|].
      apply (handleLogin_resolved _ _ _ _ Hv Hcoerce).
  - right. apply (handleLogin_unreadable _ _ _ _ He Hmsg).
Qed.

(** The fallback makes the error of a failed submission truthy. *)
Lemma or_fallback_truthy x :
  Js.truthy (Js.or x (Js.VStr Login.fallback_message)) = true.
Proof. unfold Js.or. destruct (Js.truthy x) eqn:Hx; [exact Hx | reflexivity]. Qed.

(** Every submission ends normally, in a state that differs from the one
    it started in by the error and the cleared busy flag only, with the
    one POST added to the network log. *)
Lemma handleLogin_runs reply w st :
  exists (w' : World) (e : Js.Value),
    Login.handleLogin reply w st = (Js.Normal tt, w', Login.submitted st e)
    /\ network w' = network w ++ [Login.login_request st].
Proof.
  destruct reply as [data|f].
  - destruct (handleLogin_2xx data w st) as [(v & _ & _ & ->)| ->]; eauto.
  - rewrite handleLogin_rejected. eauto.
Qed.

(** X1.  Whatever the POST settles to, [handleLogin] completes without
    an exception, has sent exactly one request, the POST of the typed
    email and password to the fixed login URL, and leaves the form
    enabled with its two fields as they were. *)
Theorem login_always_one_post :
  forall (reply : Reply Js.Value) (w : World) (st : Login.State),
    let out := Login.handleLogin reply w st in
    result_of out = Js.Normal tt
    /\ network (world_of out) =
       network w
       ++ [{| method := POST;
              url := "http://localhost:8000/api/login";
              headers := [];
              body := Js.VObj [("email", Js.VStr (Login.email st));
                               ("password", Js.VStr (Login.password st))] |}]
    /\ Login.loading (state_of out) = false
    /\ Login.email (state_of out) = Login.email st
    /\ Login.password (state_of out) = Login.password st.
Proof.
  intros reply w st out. subst out.
  destruct (handleLogin_runs reply w st) as (w' & e & -> & Hnet).
  repeat split. exact Hnet.
Qed.

(** X2.  A 2xx reply whose body is [null] or [undefined] is handled as a
    failure: reading [token] throws inside the [try], so nothing is
    stored, nothing is navigated to, and the fallback message is shown. *)
Theorem login_null_body_is_a_failure :
  forall (data : Js.Value) (w : World) (st : Login.State),
    data = Js.VNull \/ data = Js.VUndefined ->
    let out := Login.handleLogin (Resolved data) w st in
    result_of out = Js.Normal tt
    /\ storage (world_of out) = storage w
    /\ navigations (world_of out) = navigations w
    /\ location (world_of out) = location w
    /\ Login.error (state_of out) = Js.VStr "Something went wrong."
    /\ Login.error_box (state_of out) =
       Js.Normal [React.Elem "div" [] [React.Text "Something went wrong."]]
    /\ Login.loading (state_of out) = false.
Proof.
  intros data w st [-> | ->] out; subst out; repeat split.
Qed.

Lemma login_null_body_is_a_failure_witness :
  let out := Login.handleLogin (Resolved Js.VNull)
               Scenario.fresh Scenario.credentials in
  navigations (world_of out) = []
  /\ Login.error (state_of out) = Js.VStr "Something went wrong.".
Proof.
  destruct (login_null_body_is_a_failure Js.VNull Scenario.fresh
              Scenario.credentials (or_introl eq_refl))
    as (_ & _ & Hnav & _ & Herr & _).
  split; [exact Hnav | exact Herr].
Defined.

(** A string error is what the error box shows. *)
Lemma error_box_of_string (st : Login.State) (s : string) :
  Login.error st = Js.VStr s ->
  Js.truthy (Login.error st) = true ->
  Login.error_box st = Js.Normal [React.Elem "div" [] [React.Text s]].
Proof.
  intros Herr Htruthy. unfold Login.error_box. rewrite Htruthy, Herr.
  reflexivity.
Qed.

(** X3.  A submission ends in exactly one of two ways: signed in (the
    slot is written, the dashboard is navigated to once, no error is set
    and no error box is rendered), or failed (slot, route and
    navigations untouched, and a truthy error set: the fallback text or
    the message value of the error body, which the error box shows
    whenever it is a string).  The token is never stored without the
    navigation, nor the other way round. *)
Theorem login_signed_in_or_visible_error :
  forall (reply : Reply Js.Value) (w : World) (st : Login.State),
    let out := Login.handleLogin reply w st in
    (exists text : string,
        storage (world_of out) = <["token" := text]> (storage w)
        /\ storage (world_of out) !! "token" = Some text
        /\ navigations (world_of out) = navigations w ++ ["/dashboard"]
        /\ location (world_of out) = "/dashboard"
        /\ Login.error (state_of out) = Js.VNull
        /\ Login.error_box (state_of out) = Js.Normal [])
    \/
    (storage (world_of out) = storage w
     /\ navigations (world_of out) = navigations w
     /\ location (world_of out) = location w
     /\ Js.truthy (Login.error (state_of out)) = true
     /\ (Login.error (state_of out) = Js.VStr "Something went wrong."
         \/ exists status data,
              reply = Rejected (HttpError status data)
              /\ Login.error (state_of out) = Js.GetOpt data "message")
     /\ (forall s : string,
           Login.error (state_of out) = Js.VStr s ->
           Login.error_box (state_of out) =
           Js.Normal [React.Elem "div" [] [React.Text s]])).
Proof.
  intros reply w st out. subst out.
  assert (Hfailed : forall (w' : World) (e : Js.Value),
             Js.truthy e = true ->
             forall s : string,
               Login.error (Login.submitted st e) = Js.VStr s ->
               Login.error_box (Login.submitted st e) =
               Js.Normal [React.Elem "div" [] [React.Text s]]).
  { intros _ e Htruthy s Herr. apply error_box_of_string; assumption. }
  destruct reply as [data|f].
  - destruct (handleLogin_2xx data w st) as [(v & _ & _ & ->)| ->].
    + left. exists (Js.ToString v).
      cbn [world_of state_of fst snd go set_item record storage
           navigations location Login.submitted Login.error].
      rewrite lookup_insert_eq. repeat split.
    + right.
      cbn [world_of state_of fst snd record storage navigations location].
      do 4 (split; [reflexivity|]). split; [left; reflexivity|].
      apply (Hfailed w). reflexivity.
  - right. rewrite handleLogin_rejected.
    cbn [world_of state_of fst snd record storage navigations location].
    do 3 (split; [reflexivity|]).
    split; [apply or_fallback_truthy|]. split.
    + destruct f as [|status data]; [left; reflexivity|].
      unfold Js.or. cbn [Login.submitted Login.error].
      destruct (Js.truthy (Js.GetOpt data "message")); eauto.
    + apply (Hfailed w). apply or_fallback_truthy.
Qed.

(** X4.  The first half of [handleLogin], up to its [await], raises the
    busy flag, drops the error of an earlier attempt and sends the POST;
    in the state it leaves, which is the one on screen while the request
    is in flight, the submit button is disabled and reads
    [Signing in...] and no error box is rendered.  The second half runs
    from exactly that state, and once it has run, however the POST
    settled, the button is enabled again and reads [Sign In]. *)
Theorem login_button_follows_request :
  forall (reply : Reply Js.Value) (w : World) (st : Login.State),
    let in_flight := Login.begin w st in
    result_of in_flight = Js.Normal tt
    /\ state_of in_flight =
       {| Login.email := Login.email st; Login.password := Login.password st;
          Login.error := Js.VNull; Login.loading := true |}
    /\ network (world_of in_flight) = network w ++ [Login.login_request st]
    /\ storage (world_of in_flight) = storage w
    /\ navigations (world_of in_flight) = navigations w
    /\ Login.submit_button (state_of in_flight) =
       React.Elem "button"
         [("type", React.PStr "submit"); ("disabled", React.PBool true)]
         [React.Text "Signing in..."]
    /\ Login.error_box (state_of in_flight) = Js.Normal []
    /\ Login.handleLogin reply w st =
       Login.resume reply (world_of in_flight) (state_of in_flight)
    /\ Login.submit_button (state_of (Login.handleLogin reply w st)) =
       React.Elem "button"
         [("type", React.PStr "submit"); ("disabled", React.PBool false)]
         [React.Text "Sign In"].
Proof.
  intros reply w st in_flight. subst in_flight.
  do 8 (split; [reflexivity|]).
  destruct (handleLogin_runs reply w st) as (w' & e & -> & _).
  reflexivity.
Qed.

(** X5.  A server message that is a JSON object, not a string, is stored
    as the error as it is, and the next render of the login screen throws
    on it instead of showing an error box. *)
Theorem login_object_message_breaks_render :
  forall (status : Z) (fields obj : list (string * Js.Value))
         (w : World) (st : Login.State),
    Js.own fields "message" = Js.VObj obj ->
    let out := Login.handleLogin
                 (Rejected (HttpError status (Js.VObj fields))) w st in
    Login.error (state_of out) = Js.VObj obj
    /\ Login.view (state_of out) =
       Js.Throw (Js.TypeError "Objects are not valid as a React child").
Proof.
  intros status fields obj w st Hmsg out. subst out.
  rewrite handleLogin_rejected. cbn [Js.GetOpt]. rewrite Hmsg.
  split; reflexivity.
Qed.

Lemma login_object_message_breaks_render_witness :
  let out := Login.handleLogin
               (Rejected (HttpError 422
                  (Js.VObj [("message",
                             Js.VObj [("email", Js.VStr "taken")])])))
               Scenario.fresh Scenario.credentials in
  Login.view (state_of out) =
  Js.Throw (Js.TypeError "Objects are not valid as a React child").
Proof.
  destruct (login_object_message_breaks_render 422
              [("message", Js.VObj [("email", Js.VStr "taken")])]
              [("email", Js.VStr "taken")]
              Scenario.fresh Scenario.credentials eq_refl) as [_ Hview].
  exact Hview.
Defined.

(** X6.  What is typed into the two fields is what the next submit
    sends, and typing alone neither dismisses a shown error nor touches
    the busy flag or the world. *)
Theorem login_sends_what_was_typed :
  forall (e p : string) (reply : Reply Js.Value) (w : World)
         (st : Login.State),
    let out := Login.type_and_submit e p reply w st in
    network (world_of out) =
    network w
    ++ [{| method := POST;
           url := "http://localhost:8000/api/login";
           headers := [];
           body := Js.VObj [("email", Js.VStr e); ("password", Js.VStr p)] |}]
    /\ Login.email (state_of out) = e
    /\ Login.password (state_of out) = p
    /\ Login.setEmail e w st =
       (Js.Normal tt, w,
        {| Login.email := e; Login.password := Login.password st;
           Login.error := Login.error st; Login.loading := Login.loading st |})
    /\ Login.setPassword p w st =
       (Js.Normal tt, w,
        {| Login.email := Login.email st; Login.password := p;
           Login.error := Login.error st; Login.loading := Login.loading st |}).
Proof.
  intros e p reply w st out. subst out.
  unfold Login.type_and_submit, Login.setEmail, Login.setPassword, modify_state.
  cbv [mbind M_bind]. cbn [Login.email Login.password Login.error Login.loading].
  destruct (handleLogin_runs reply w
              {| Login.email := e; Login.password := p;
                 Login.error := Login.error st;
                 Login.loading := Login.loading st |})
    as (w' & err & -> & Hnet).
  repeat split. exact Hnet.
Qed.

(* ===================================================================== *)
(** ** From login to the dashboard *)
(* ===================================================================== *)

(** The session gate on any world. *)
Lemma activate_cases env w st :
  Dashboard.activate env w st =
  if Js.truthy (Dashboard.nullable (storage w !! "token")) then
    (Js.Normal true,
     record (Dashboard.dashboard_request env (storage w !! "token")) w, st)
  else (Js.Normal false, go "/" w, st).
Proof.
  destruct (Js.truthy (Dashboard.nullable (storage w !! "token"))) eqn:Ht.
  - apply activate_present, Ht.
  - apply activate_missing, Ht.
Qed.

(** A visit on any world. *)
Lemma run_cases env reply w :
  Dashboard.run env reply w =
  if Js.truthy (Dashboard.nullable (storage w !! "token")) then
    Dashboard.settle reply
      (record (Dashboard.dashboard_request env (storage w !! "token")) w)
      Dashboard.initial
  else (Js.Normal tt, go "/" w, Dashboard.initial).
Proof.
  unfold Dashboard.run, Dashboard.visit. cbv [mbind M_bind].
  rewrite activate_cases.
  destruct (Js.truthy (Dashboard.nullable (storage w !! "token")));
    reflexivity.
Qed.

(** On replies of the declared shape the untyped screen does what the
    typed one does. *)
Lemma any_run_of_typed env reply w :
  DashboardAny.run env (DashboardAny.of_typed_reply reply) w =
  (result_of (Dashboard.run env reply w),
   world_of (Dashboard.run env reply w),
   DashboardAny.of_typed_state (state_of (Dashboard.run env reply w))).
Proof.
  rewrite any_run_cases, run_cases.
  destruct (Js.truthy _); [|reflexivity].
  destruct reply as [d|f]; [reflexivity|].
  cbn [DashboardAny.of_typed_reply].
  rewrite any_settle_rejected, settle_rejected.
  destruct (bool_decide _); reflexivity.
Qed.

(** Truthiness of a stored string is non-emptiness. *)
Lemma truthy_stored (s : string) :
  Js.truthy (Dashboard.nullable (Some s)) = negb (String.eqb s "").
Proof. reflexivity. Qed.

(** X7.  After a login whose token is a non-empty string, the
    dashboard's gate lets the visit through: the one request it sends is
    a GET whose Authorization header is [Bearer] followed by exactly that
    string, and no redirect happens. *)
Theorem login_token_reaches_dashboard_request :
  forall (env : Host.Env) (w : World) (st : Login.State) (data : Js.Value)
         (t : string),
    Js.Get data "token" = Js.Normal (Js.VStr t) ->
    t <> "" ->
    let login := Login.handleLogin (Resolved data) w st in
    let gate := Dashboard.activate env (world_of login) Dashboard.initial in
    result_of gate = Js.Normal true
    /\ network (world_of gate) =
       (network w ++ [Login.login_request st])
       ++ [{| method := GET;
              url := Js.ToString (Host.VITE_API_BASE_URL env)
                     +:+ "/tenant/dashboard";
              headers := [("Accept", "application/json");
                          ("Authorization", "Bearer " +:+ t)];
              body := Js.VUndefined |}]
    /\ navigations (world_of gate) = navigations w ++ ["/dashboard"]
    /\ location (world_of gate) = "/dashboard".
Proof.
  intros env w st data t Hget Hne login gate. subst gate login.
  rewrite (handleLogin_resolved _ _ _ _ Hget eq_refl), activate_cases.
  cbn [world_of fst snd go set_item record storage Js.ToString].
  rewrite lookup_insert_eq, truthy_stored.
  destruct (String.eqb_spec t "") as [Heq|_]; [congruence|].
  repeat split.
Qed.

Lemma login_token_reaches_dashboard_request_witness :
  let login := Login.handleLogin
                 (Resolved (Js.VObj [("token", Js.VStr "abc")]))
                 Scenario.fresh Scenario.credentials in
  result_of (Dashboard.activate Scenario.dubai (world_of login)
               Dashboard.initial) = Js.Normal true.
Proof.
  destruct (login_token_reaches_dashboard_request Scenario.dubai
              Scenario.fresh Scenario.credentials
              (Js.VObj [("token", Js.VStr "abc")]) "abc")
    as (Hgate & _).
  - reflexivity.
  - discriminate.
  - exact Hgate.
Defined.

(** A value whose text is empty is a string or an array of such and of
    nulls: its coercion does not throw. *)
Lemma ToString_empty_coerces :
  forall v : Js.Value, Js.ToString v = "" -> Js.coercion_throws v = false.
Proof.
  fix IH 1. intros [| |b|z|s|items|fields] Htext; try reflexivity.
  - destruct items as [|x [|y rest]]; [reflexivity| |].
    + cbn [Js.coercion_throws]. rewrite orb_false_r.
      pose proof (IH x) as IHx.
      destruct x; try reflexivity; apply IHx; exact Htext.
    + exfalso. cbn [Js.ToString] in Htext.
      destruct (match x with
                | Js.VUndefined | Js.VNull => ""
                | _ => Js.ToString x
                end); discriminate Htext.
  - discriminate Htext.
Qed.

(** X8.  A login whose token turns into the empty text (the empty string
    itself, or an empty array) still counts as a success and navigates to
    the dashboard, whose gate then sends nothing and bounces the user
    back to the entry route. *)
Theorem login_empty_token_bounces :
  forall (env : Host.Env) (w : World) (st : Login.State) (data v : Js.Value)
         (reply : Reply Dashboard.TenantData),
    Js.Get data "token" = Js.Normal v ->
    Js.ToString v = "" ->
    let login := Login.handleLogin (Resolved data) w st in
    let visit := Dashboard.run env reply (world_of login) in
    Login.error (state_of login) = Js.VNull
    /\ storage (world_of login) !! "token" = Some ""
    /\ result_of visit = Js.Normal tt
    /\ network (world_of visit) = network w ++ [Login.login_request st]
    /\ navigations (world_of visit) =
       (navigations w ++ ["/dashboard"]) ++ ["/"]
    /\ location (world_of visit) = "/".
Proof.
  intros env w st data v reply Hget Hempty login visit. subst visit login.
  rewrite (handleLogin_resolved _ _ _ _ Hget (ToString_empty_coerces _ Hempty)),
    run_cases, Hempty.
  cbn [world_of state_of fst snd go set_item record storage
       Login.submitted Login.error].
  rewrite lookup_insert_eq. repeat split.
Qed.

Lemma login_empty_token_bounces_witness :
  let login := Login.handleLogin (Resolved (Js.VObj [("token", Js.VStr "")]))
                 Scenario.fresh Scenario.credentials in
  location (world_of (Dashboard.run Scenario.dubai
                        (Resolved Scenario.profile_J) (world_of login)))
  = "/".
Proof.
  destruct (login_empty_token_bounces Scenario.dubai Scenario.fresh
              Scenario.credentials (Js.VObj [("token", Js.VStr "")])
              (Js.VStr "") (Resolved Scenario.profile_J))
    as (_ & _ & _ & _ & _ & Hloc).
  - reflexivity.
  - reflexivity.
  - exact Hloc.
Defined.

(** X9.  The credential slot is the only thing the client ever writes:
    a submission, a dashboard visit and a click on sign-out leave every
    other key of storage exactly as it was, whatever the server
    replies. *)
Theorem only_the_token_key_is_written :
  forall (key : string) (env : Host.Env) (w : World),
    key <> "token" ->
    (forall (reply : Reply Js.Value) (st : Login.State),
        storage (world_of (Login.handleLogin reply w st)) !! key
        = storage w !! key)
    /\ (forall reply : Reply Dashboard.TenantData,
          storage (world_of (Dashboard.run env reply w)) !! key
          = storage w !! key)
    /\ (forall st : Dashboard.State,
          storage (world_of (Dashboard.click_sign_out env w st)) !! key
          = storage w !! key).
Proof.
  intros key env w Hkey. split; [|split].
  - intros [data|f] st.
    + destruct (handleLogin_2xx data w st) as [(v & _ & _ & ->)| ->].
      * cbn [world_of fst snd go set_item record storage].
        apply lookup_insert_ne. congruence.
      * reflexivity.
    + rewrite handleLogin_rejected. reflexivity.
  - intros reply. rewrite run_cases.
    destruct (Js.truthy _); [|reflexivity].
    destruct reply as [d|f]; [reflexivity|].
    rewrite settle_rejected. destruct (bool_decide _); [|reflexivity].
    cbn [world_of fst snd go remove_item record storage].
    apply lookup_delete_ne. congruence.
  - intros st. unfold Dashboard.click_sign_out, get_state.
    cbv [mbind M_bind].
    destruct (Dashboard.offers env React.SignOut st); [|reflexivity].
    rewrite sign_out_run.
    cbn [world_of fst snd go remove_item storage].
    apply lookup_delete_ne. congruence.
Qed.

Lemma only_the_token_key_is_written_witness :
  storage (world_of (Dashboard.run Scenario.dubai
                       (Rejected (HttpError 401 Js.VNull))
                       (set_item "theme" "dark" (Scenario.signed_in "abc"))))
    !! "theme"
  = Some "dark".
Proof.
  destruct (only_the_token_key_is_written "theme" Scenario.dubai
              (set_item "theme" "dark" (Scenario.signed_in "abc")))
    as (_ & Hrun & _).
  - discriminate.
  - rewrite (Hrun (Rejected (HttpError 401 Js.VNull))). reflexivity.
Defined.

(* ===================================================================== *)
(** ** Dashboard fetch: every reply *)
(* ===================================================================== *)



(** X11.  Every visit, whatever the slot holds and whatever the server
    replies, completes without an exception in exactly one of three
    ways: redirected to the entry route with the screen still in its
    initial loading state; settled on a 2xx reply, with its body, of
    whatever shape, as the data; or failed, with the fixed message.  At
    most one request, a GET, has been sent.  The component returns null
    after a visit exactly when the reply was a 2xx whose body is falsy
    and not of the declared shape. *)
Theorem dashboard_visit_outcomes :
  forall (env : Host.Env) (reply : Reply DashboardAny.Body) (w : World),
    let out := DashboardAny.run env reply w in
    result_of out = Js.Normal tt
    /\ ((navigations (world_of out) = navigations w ++ ["/"]
         /\ location (world_of out) = "/"
         /\ state_of out = DashboardAny.initial)
        \/ (exists b,
               reply = Resolved b
               /\ state_of out =
                  {| DashboardAny.data := Some b;
                     DashboardAny.loading := false;
                     DashboardAny.error := None |}
               /\ world_of out =
                  record (Dashboard.dashboard_request env
                            (storage w !! "token")) w)
        \/ (state_of out =
            {| DashboardAny.data := None; DashboardAny.loading := false;
               DashboardAny.error := Some Dashboard.load_error_message |}
            /\ world_of out =
               record (Dashboard.dashboard_request env
                         (storage w !! "token")) w))
    /\ (network (world_of out) = network w
        \/ exists req, network (world_of out) = network w ++ [req]
                       /\ method req = GET)
    /\ (DashboardAny.render env (state_of out) = DashboardAny.ReturnsNull
        <-> exists v,
              reply = Resolved (DashboardAny.Other v)
              /\ Js.truthy v = false
              /\ Js.truthy (Dashboard.nullable (storage w !! "token"))
                 = true).
Proof.
  intros env reply w out. subst out. rewrite any_run_cases.
  destruct (Js.truthy (Dashboard.nullable (storage w !! "token"))) eqn:Hslot.
  - destruct reply as [b|f].
    + rewrite any_settle_resolved. split; [reflexivity|]. split.
      { right. left. exists b. repeat split. }
      split.
      { right. eexists. split; reflexivity. }
      unfold DashboardAny.render.
      cbn [state_of snd DashboardAny.loading DashboardAny.error
           DashboardAny.data DashboardAny.initial Dashboard.nullable
           Js.truthy].
      destruct b as [d|v].
      * split; [discriminate|]. intros (v & Hv & _). discriminate Hv.
      * destruct (Js.truthy v) eqn:Hv; cbn [negb]; cbv beta iota.
        -- split.
           ++ destruct (Js.Get v "active_leases") as [leases|];
                [destruct (Js.Get leases "length")|]; discriminate.
           ++ intros (v' & [= <-] & Hfalsy & _). congruence.
        -- split; [|reflexivity].
           intros _. exists v. repeat split. exact Hv.
    + rewrite any_settle_rejected. destruct (bool_decide _).
      * split; [reflexivity|]. split; [left; repeat split|]. split.
        { right. eexists. split; reflexivity. }
        split; [discriminate|]. intros (v & Hv & _). discriminate Hv.
      * split; [reflexivity|]. split; [right; right; repeat split|]. split.
        { right. eexists. split; reflexivity. }
        split; [discriminate|]. intros (v & Hv & _). discriminate Hv.
  - split; [reflexivity|]. split; [left; repeat split|]. split.
    { left. reflexivity. }
    split; [discriminate|]. intros (v & _ & _ & Hno). discriminate Hno.
Qed.

(** X12.  Sign-out ends the session for good: however the handler was
    reached, the next activation of the dashboard finds the slot empty,
    sends nothing and redirects to the entry route. *)
Theorem sign_out_then_visit_sends_nothing :
  forall (env : Host.Env) (reply : Reply Dashboard.TenantData)
         (w : World) (st : Dashboard.State),
    let signed_out := world_of (Dashboard.sign_out w st) in
    let out := Dashboard.run env reply signed_out in
    storage signed_out !! "token" = None
    /\ result_of out = Js.Normal tt
    /\ network (world_of out) = network w
    /\ location (world_of out) = "/"
    /\ navigations (world_of out) = (navigations w ++ ["/"]) ++ ["/"]
    /\ state_of out = Dashboard.initial.
Proof.
  intros env reply w st signed_out out. subst out signed_out.
  rewrite sign_out_run, run_cases.
  cbn [world_of fst snd go remove_item storage].
  rewrite lookup_delete_eq. repeat split.
Qed.

(** X13.  A 401 is answered once: the visit that received it cleared the
    slot, so a further activation sends no second request, whatever the
    server would reply now, and only redirects again. *)
Theorem unauthorized_then_visit_sends_nothing :
  forall (env : Host.Env) (w : World) (token : string) (body : Js.Value)
         (reply : Reply Dashboard.TenantData),
    storage w !! "token" = Some token ->
    token <> "" ->
    let first := Dashboard.run env (Rejected (HttpError 401 body)) w in
    let second := Dashboard.run env reply (world_of first) in
    result_of second = Js.Normal tt
    /\ network (world_of second) =
       network w ++ [Dashboard.dashboard_request env (Some token)]
    /\ navigations (world_of second) = (navigations w ++ ["/"]) ++ ["/"]
    /\ location (world_of second) = "/"
    /\ state_of second = Dashboard.initial.
Proof.
  intros env w token body reply Hslot Hne first second. subst second first.
  rewrite (run_with_credential _ _ _ _ Hslot Hne), settle_rejected.
  cbn [rejected_status]. rewrite bool_decide_eq_true_2 by reflexivity.
  rewrite run_cases.
  cbn [world_of fst snd go remove_item record storage].
  rewrite lookup_delete_eq. repeat split.
Qed.

Lemma unauthorized_then_visit_sends_nothing_witness :
  let first := Dashboard.run Scenario.dubai
                 (Rejected (HttpError 401 Js.VNull))
                 (Scenario.signed_in "abc") in
  length (network (world_of (Dashboard.run Scenario.dubai
                               (Resolved Scenario.profile_J)
                               (world_of first)))) = 1%nat.
Proof.
  intros first. subst first.
  destruct (unauthorized_then_visit_sends_nothing Scenario.dubai
              (Scenario.signed_in "abc") "abc" Js.VNull
              (Resolved Scenario.profile_J)) as (_ & Hnet & _).
  - reflexivity.
  - discriminate.
  - rewrite Hnet. reflexivity.
Defined.

(* ===================================================================== *)
(** ** Dashboard render: cards, notice, keys, controls *)
(* ===================================================================== *)

(** Collecting keys in an element is collecting them in its children,
    after the root's own. *)
Lemma keys_Elem tag props children :
  React.keys (React.Elem tag props children) =
  match React.prop "key" props with
  | Some k => [k]
  | None => []
  end ++ concat (map React.keys children).
Proof.
  cbn [React.keys]. f_equal.
  induction children as [|c rest IH]; [reflexivity|].
  rewrite IH. reflexivity.
Qed.

Lemma list_sum_cons (x : nat) (r : list nat) :
  list_sum (x :: r) = (x + list_sum r)%nat.
Proof. reflexivity. Qed.

Lemma list_sum_nil : list_sum [] = 0%nat.
Proof. reflexivity. Qed.

(** A count that is the same in every card adds up over the list. *)
Lemma count_cards p env leases k :
  (forall l, React.count p (Dashboard.lease_card env l) = k) ->
  list_sum (map (React.count p) (map (Dashboard.lease_card env) leases))
  = (k * length leases)%nat.
Proof.
  intros Hcard. induction leases as [|l rest IH]; [cbn; lia|].
  cbn [map length]. rewrite !list_sum_cons.
  rewrite IH, Hcard. lia.
Qed.

(** The main area, counted: the root and the header by themselves, the
    cards through their list. *)
Lemma count_main p env d :
  React.count p (Dashboard.main env d)
  = ((if p (Dashboard.main env d) then 1 else 0)
     + React.count p
         (React.Elem "header" []
            [React.Elem "div" []
               [React.Elem "h2" [] [React.Text "Your Property Overview"];
                React.Elem "p" []
                  [React.Text
                     "View your current lease details and important documents."]];
             Dashboard.badge d])
     + match Dashboard.active_leases d with
       | [] => React.count p Dashboard.no_leases_notice
       | l :: rest =>
           (if p (React.Elem "div" []
                    (map (Dashboard.lease_card env) (l :: rest)))
            then 1 else 0)
           + list_sum (map (React.count p)
                         (map (Dashboard.lease_card env) (l :: rest)))
       end)%nat.
Proof.
  unfold Dashboard.main.
  destruct (Dashboard.active_leases d) as [|l rest].
  - cbn [length Nat.ltb Nat.leb]. rewrite (count_Elem p "main").
    cbn [map]. rewrite !list_sum_cons, ?list_sum_nil. lia.
  - change (0 <? length (l :: rest))%nat with true. cbv iota.
    rewrite (count_Elem p "main").
    cbn [map]. rewrite !list_sum_cons, ?list_sum_nil.
    rewrite (count_Elem p "div" [] (_ :: _)). cbn [map].
    rewrite ?list_sum_cons. lia.
Qed.

(** The loaded screen, counted. *)
Lemma count_loaded p env d :
  React.count p
    (React.Elem "div" [] [Dashboard.navbar d; Dashboard.main env d])
  = ((if p (React.Elem "div" [] [Dashboard.navbar d; Dashboard.main env d])
      then 1 else 0)
     + React.count p (Dashboard.navbar d)
     + React.count p (Dashboard.main env d))%nat.
Proof.
  rewrite (count_Elem p "div" []).
  cbn [map]. rewrite !list_sum_cons, ?list_sum_nil. lia.
Qed.

Lemma card_is_one_card env l :
  React.count Dashboard.is_card (Dashboard.lease_card env l) = 1%nat.
Proof.
  unfold Dashboard.lease_card.
  destruct (contract_cases l) as [(href & _ & _ & ->)|[_ ->]]; reflexivity.
Qed.

Lemma card_holds_no_notice env l :
  React.count Dashboard.is_no_leases_notice (Dashboard.lease_card env l)
  = 0%nat.
Proof.
  unfold Dashboard.lease_card.
  destruct (contract_cases l) as [(href & _ & _ & ->)|[_ ->]]; reflexivity.
Qed.

(** X14.  On the loaded screen there is one card per lease and nothing
    else is a card; the no-active-leases notice appears exactly once when
    the list is empty and not at all otherwise, whatever text the leases
    and the profile carry. *)
Theorem cards_or_notice :
  forall (env : Host.Env) (d : Dashboard.TenantData),
    let screen :=
      React.Elem "div" [] [Dashboard.navbar d; Dashboard.main env d] in
    React.count Dashboard.is_card screen = length (Dashboard.active_leases d)
    /\ React.count Dashboard.is_no_leases_notice screen =
       match Dashboard.active_leases d with
       | [] => 1%nat
       | _ :: _ => 0%nat
       end.
Proof.
  intros env d screen. subst screen. rewrite !count_loaded, !count_main.
  destruct (Dashboard.active_leases d) as [|l rest] eqn:Hleases.
  - unfold Dashboard.main. rewrite Hleases. split; reflexivity.
  - rewrite (count_cards _ env (l :: rest) 1 (card_is_one_card env)).
    rewrite (count_cards _ env (l :: rest) 0 (card_holds_no_notice env)).
    unfold Dashboard.main. rewrite Hleases.
    split; cbn; lia.
Qed.

Lemma card_keys env l :
  React.keys (Dashboard.lease_card env l) = [React.PNum (Dashboard.id l)].
Proof.
  unfold Dashboard.lease_card.
  destruct (contract_cases l) as [(href & _ & _ & ->)|[_ ->]]; reflexivity.
Qed.

Lemma cards_keys env leases :
  concat (map React.keys (map (Dashboard.lease_card env) leases))
  = map (fun l => React.PNum (Dashboard.id l)) leases.
Proof.
  induction leases as [|l rest IH]; [reflexivity|].
  cbn [map concat]. rewrite card_keys, IH. reflexivity.
Qed.

Lemma NoDup_PNum (ids : list Z) :
  NoDup ids -> NoDup (map React.PNum ids).
Proof.
  induction 1 as [|z rest Hnotin _ IH]; [constructor|].
  cbn [map]. constructor; [|exact IH].
  intros Hin. apply Hnotin.
  apply list_elem_of_In in Hin. apply in_map_iff in Hin.
  destruct Hin as (z' & [= ->] & Hz'). apply list_elem_of_In, Hz'.
Qed.

(** X15.  The React keys on the loaded screen are the lease ids, one per
    card and in the order of the list, and nothing else carries a key; so
    when the ids of a profile are pairwise distinct, as the data model
    says, its keys are too. *)
Theorem card_keys_are_lease_ids :
  forall (env : Host.Env) (d : Dashboard.TenantData),
    let screen :=
      React.Elem "div" [] [Dashboard.navbar d; Dashboard.main env d] in
    React.keys screen
    = map (fun l => React.PNum (Dashboard.id l)) (Dashboard.active_leases d)
    /\ (NoDup (map Dashboard.id (Dashboard.active_leases d)) ->
        NoDup (React.keys screen)).
Proof.
  intros env d screen.
  assert (Hkeys : React.keys screen
                  = map (fun l => React.PNum (Dashboard.id l))
                      (Dashboard.active_leases d)).
  { subst screen. unfold Dashboard.main.
    destruct (Dashboard.active_leases d) as [|l rest]; [reflexivity|].
    change (0 <? length (l :: rest))%nat with true. cbv iota.
    set (cards := map (Dashboard.lease_card env) (l :: rest)).
    rewrite (keys_Elem "div" [] [_; _]). cbn [map concat React.prop app].
    rewrite (keys_Elem "main"). cbn [map concat React.prop app].
    rewrite (keys_Elem "div" [] cards). subst cards. rewrite cards_keys.
    cbn [React.prop app]. rewrite !app_nil_r. reflexivity. }
  split; [exact Hkeys|].
  intros Hids. rewrite Hkeys, <- (map_map Dashboard.id React.PNum).
  apply NoDup_PNum, Hids.
Qed.

Lemma card_keys_are_lease_ids_witness :
  NoDup (React.keys
           (React.Elem "div" []
              [Dashboard.navbar Scenario.profile_J;
               Dashboard.main Scenario.dubai Scenario.profile_J])).
Proof.
  destruct (card_keys_are_lease_ids Scenario.dubai Scenario.profile_J)
    as [_ Hnodup].
  apply Hnodup. cbn. apply NoDup_cons; split; [apply not_elem_of_nil|].
  apply NoDup_nil. exact I.
Defined.

Lemma card_has_no_control a env l :
  React.count (React.handles a) (Dashboard.lease_card env l) = 0%nat.
Proof.
  unfold Dashboard.lease_card.
  destruct (contract_cases l) as [(href & _ & _ & ->)|[_ ->]]; reflexivity.
Qed.

(** X16.  The loaded screen wires exactly one event handler, the click
    of the sign-out button; no lease, however many there are and whatever
    they contain, adds a control, and none of the login form's handlers
    is present. *)
Theorem loaded_screen_has_one_control :
  forall (env : Host.Env) (d : Dashboard.TenantData) (a : React.Action),
    React.count (React.handles a)
      (React.Elem "div" [] [Dashboard.navbar d; Dashboard.main env d])
    = match a with
      | React.SignOut => 1%nat
      | _ => 0%nat
      end.
Proof.
  intros env d a. rewrite count_loaded, count_main.
  destruct (Dashboard.active_leases d) as [|l rest] eqn:Hleases.
  - unfold Dashboard.main. rewrite Hleases. destruct a; reflexivity.
  - rewrite (count_cards _ env (l :: rest) 0 (card_has_no_control a env)).
    unfold Dashboard.main. rewrite Hleases.
    destruct a; reflexivity.
Qed.

(* ===================================================================== *)
(** ** Rent: a number and its decimal string *)
(* ===================================================================== *)

Lemma digit_val_pretty_char (d : N) :
  (d < 10)%N -> Js.digit_val (pretty_N_char d) = Some (Z.of_N d).
Proof.
  intros Hd.
  assert (Hcases : (d = 0 \/ d = 1 \/ d = 2 \/ d = 3 \/ d = 4 \/ d = 5
                    \/ d = 6 \/ d = 7 \/ d = 8 \/ d = 9)%N) by lia.
  repeat (destruct Hcases as [-> | Hcases]; [reflexivity|]).
  subst d. reflexivity.
Qed.

(** Reading back the digits that [pretty] puts in front of [s]: the
    accumulator is shifted by a power of ten and the number added. *)
Lemma digits_val_pretty_go (x : N) :
  exists k : Z, forall (acc : Z) (s : string),
    Js.digits_val acc (pretty_N_go x s)
    = Js.digits_val (acc * k + Z.of_N x) s.
Proof.
  induction (N.lt_wf_0 x) as [x _ IH].
  destruct (N.eq_dec x 0) as [-> | Hpos].
  - exists 1. intros acc s. rewrite pretty_N_go_0. f_equal. lia.
  - destruct (IH (x `div` 10)%N) as [k Hk].
    { apply N.div_lt; lia. }
    exists (10 * k). intros acc s.
    rewrite pretty_N_go_step by lia. rewrite Hk.
    cbn [Js.digits_val].
    rewrite digit_val_pretty_char by (apply N.mod_lt; lia).
    f_equal.
    pose proof (N.div_mod' x 10) as Hdm.
    apply (f_equal Z.of_N) in Hdm.
    rewrite N2Z.inj_add, N2Z.inj_mul in Hdm. lia.
Qed.

Lemma digits_val_pretty_N (x : N) :
  Js.digits_val 0 (pretty x) = Some (Z.of_N x).
Proof.
  unfold pretty, pretty_N. case_decide as Hx.
  - subst x. reflexivity.
  - destruct (digits_val_pretty_go x) as [k Hk]. rewrite Hk.
    cbn [Js.digits_val]. f_equal.
Qed.

(** A string that reads as digits reads the same through [Number]. *)
Lemma StringToNumber_digits (s : string) (v : Z) :
  Js.digits_val 0 s = Some v -> Js.StringToNumber s = Some v.
Proof.
  destruct s as [|c rest]; [intros [= <-]; reflexivity|].
  destruct c as [[] [] [] [] [] [] [] []]; try (intros H; exact H).
  intros H. discriminate H.
Qed.

(** [Number] undoes the decimal spelling of every integer. *)
Lemma StringToNumber_pretty (z : Z) : Js.StringToNumber (pretty z) = Some z.
Proof.
  destruct z as [|p|p].
  - reflexivity.
  - apply StringToNumber_digits.
    change (pretty (Z.pos p)) with (pretty (N.pos p)).
    rewrite digits_val_pretty_N. reflexivity.
  - change (pretty (Z.neg p)) with ("-" +:+ pretty (N.pos p)).
    pose proof (digits_val_pretty_N (N.pos p)) as Hdigits.
    destruct (pretty (N.pos p)) as [|c rest] eqn:Hp.
    + discriminate Hdigits.
    + change (Js.StringToNumber ("-" +:+ String c rest))
        with (Z.opp <$> Js.digits_val 0 (String c rest)).
      rewrite Hdigits. reflexivity.
Qed.

(** X17.  A rent that arrives as the decimal string of an integer below
    2^53 in magnitude, the integers a JavaScript number holds exactly, is
    rendered exactly like the same rent arriving as a number, on every
    host: [Number] turns the string back into that integer before it is
    formatted. *)
Theorem rent_string_renders_like_number :
  forall (env : Host.Env) (l1 l2 : Dashboard.Lease) (z : Z),
    Z.abs z < 9007199254740992 ->
    Dashboard.rent_amount l1 = Dashboard.RentString (pretty z) ->
    Dashboard.rent_amount l2 = Dashboard.RentNumber z ->
    Dashboard.Number (Dashboard.rent_amount l1) = Some z
    /\ Dashboard.rent env l1 = Dashboard.rent env l2
    /\ Dashboard.rent env l1 =
       React.Elem "p" []
         [React.Text "AED ";
          React.Text (Host.Number_toLocaleString (Host.defaultLocale env) z)].
Proof.
  intros env l1 l2 z _ H1 H2. unfold Dashboard.rent. rewrite H1, H2.
  cbn [Dashboard.Number]. rewrite StringToNumber_pretty.
  repeat split.
Qed.

Lemma rent_string_renders_like_number_witness :
  Dashboard.Number (Dashboard.rent_amount Scenario.lease_A1) = Some 120000.
Proof.
  destruct (rent_string_renders_like_number Scenario.dubai Scenario.lease_A1
              {| Dashboard.id := 2; Dashboard.unit_name := "A2";
                 Dashboard.rent_amount := Dashboard.RentNumber 120000;
                 Dashboard.end_date := "2025-12-31";
                 Dashboard.contract_url := None |}
              120000 ltac:(cbn; lia) eq_refl eq_refl) as [Hnum _].
  exact Hnum.
Defined.

(* ===================================================================== *)
(** ** End dates: the calendar day that is shown *)
(* ===================================================================== *)

Lemma all_below_spec (n : nat) (p : Z -> bool) :
  Host.all_below n p = true ->
  forall z : Z, 0 <= z < Z.of_nat n -> p z = true.
Proof.
  induction n as [|k IH]; intros Hall z Hz; [lia|].
  cbn [Host.all_below] in Hall. apply andb_prop in Hall as [Hk Hrest].
  destruct (Z.eq_dec z (Z.of_nat k)) as [-> | Hne]; [exact Hk|].
  apply IH; [exact Hrest | lia].
Qed.

(** The day-by-day check of one era succeeds. *)
Lemma era_checked_true :
  Host.all_below 400 (fun yoe =>
    Host.all_below 12 (fun m' =>
      Host.all_below 31 (fun d' => Host.era_round_trip yoe m' d')))
  = true.
Proof. vm_compute. reflexivity. Qed.

(** What the check says about one date of the era. *)
Lemma era_round_trip_spec (yoe m d : Z) :
  0 <= yoe < 400 -> 1 <= m <= 12 -> 1 <= d <= 31 ->
  d <= Host.days_in_month (if m <=? 2 then yoe + 1 else yoe) m ->
  0 <= Host.doe_of_civil yoe m d < 146097
  /\ Host.civil_of_doe 0 (Host.doe_of_civil yoe m d)
     = (if m <=? 2 then yoe + 1 else yoe, m, d).
Proof.
  intros Hyoe Hm Hd Hdim.
  assert (Hmonths :
            Host.all_below 12 (fun m' =>
              Host.all_below 31 (fun d' => Host.era_round_trip yoe m' d'))
            = true).
  { exact (all_below_spec 400
             (fun yoe => Host.all_below 12 (fun m' =>
                Host.all_below 31 (fun d' => Host.era_round_trip yoe m' d')))
             era_checked_true yoe Hyoe). }
  assert (Hdays :
            Host.all_below 31 (fun d' => Host.era_round_trip yoe (m - 1) d')
            = true).
  { exact (all_below_spec 12
             (fun m' => Host.all_below 31 (fun d' =>
                Host.era_round_trip yoe m' d'))
             Hmonths (m - 1) ltac:(lia)). }
  assert (Hdate : Host.era_round_trip yoe (m - 1) (d - 1) = true).
  { exact (all_below_spec 31
             (fun d' => Host.era_round_trip yoe (m - 1) d')
             Hdays (d - 1) ltac:(lia)). }
  unfold Host.era_round_trip in Hdate.
  replace (m - 1 + 1) with m in Hdate by lia.
  replace (d - 1 + 1) with d in Hdate by lia.
  rewrite (proj2 (Z.leb_le _ _) Hdim) in Hdate.
  destruct (Host.civil_of_doe 0 (Host.doe_of_civil yoe m d)) as [[y2 m2] d2].
  apply andb_prop in Hdate as [Hrange Htriple].
  apply andb_prop in Hrange as [Hlo Hhi].
  apply andb_prop in Htriple as [Hym Hd2].
  apply andb_prop in Hym as [Hy2 Hm2].
  apply Z.leb_le in Hlo. apply Z.ltb_lt in Hhi.
  apply Z.eqb_eq in Hy2, Hm2, Hd2. subst. split; [lia | reflexivity].
Qed.

(** Leap years repeat every 400 years. *)
Lemma is_leap_shift (y era : Z) :
  Host.is_leap (y + era * 400) = Host.is_leap y.
Proof.
  unfold Host.is_leap.
  replace ((y + era * 400) mod 4) with (y mod 4)
    by (Z.div_mod_to_equations; lia).
  replace ((y + era * 400) mod 100) with (y mod 100)
    by (Z.div_mod_to_equations; lia).
  replace ((y + era * 400) mod 400) with (y mod 400)
    by (Z.div_mod_to_equations; lia).
  reflexivity.
Qed.

Lemma days_in_month_shift (y era m : Z) :
  Host.days_in_month (y + era * 400) m = Host.days_in_month y m.
Proof. unfold Host.days_in_month. rewrite is_leap_shift. reflexivity. Qed.

(** A year moves the era and leaves the date within it alone. *)
Lemma civil_of_doe_era (era doe : Z) :
  Host.civil_of_doe era doe =
  match Host.civil_of_doe 0 doe with
  | (y, m, d) => (y + era * 400, m, d)
  end.
Proof.
  unfold Host.civil_of_doe. cbv zeta.
  destruct (_ <=? 2); f_equal; f_equal; lia.
Qed.

(** Days to a date and back: every day of the proleptic Gregorian
    calendar. *)
Lemma civil_round_trip (y m d : Z) :
  1 <= m <= 12 -> 1 <= d <= Host.days_in_month y m ->
  Host.civil_from_days (Host.days_from_civil y m d) = (y, m, d).
Proof.
  intros Hm Hd.
  set (y' := if m <=? 2 then y - 1 else y).
  set (era := y' / 400).
  set (yoe := y' - era * 400).
  assert (Hyoe : 0 <= yoe < 400).
  { subst yoe era. pose proof (Z.div_mod y' 400). 
    pose proof (Z.mod_pos_bound y' 400). lia. }
  assert (Hy : y = (if m <=? 2 then yoe + 1 else yoe) + era * 400).
  { subst yoe y'. destruct (m <=? 2); lia. }
  assert (Hdim : Host.days_in_month y m
                 = Host.days_in_month (if m <=? 2 then yoe + 1 else yoe) m).
  { rewrite Hy at 1. apply days_in_month_shift. }
  assert (Hd31 : d <= 31).
  { unfold Host.days_in_month in Hd.
    repeat (destruct (_ =? _) in Hd; cbn in Hd); try destruct (Host.is_leap y);
      lia. }
  destruct (era_round_trip_spec yoe m d Hyoe Hm ltac:(lia) ltac:(lia))
    as [Hdoe Hback].
  assert (Hdays : Host.days_from_civil y m d
                  = era * 146097 + Host.doe_of_civil yoe m d - 719468).
  { reflexivity. }
  rewrite Hdays.
  assert (Hcivil : Host.civil_from_days
                     (era * 146097 + Host.doe_of_civil yoe m d - 719468)
                   = Host.civil_of_doe era (Host.doe_of_civil yoe m d)).
  { unfold Host.civil_from_days, Host.civil_of_doe. cbv zeta.
    replace (era * 146097 + Host.doe_of_civil yoe m d - 719468 + 719468)
      with (era * 146097 + Host.doe_of_civil yoe m d) by lia.
    replace ((era * 146097 + Host.doe_of_civil yoe m d) / 146097) with era
      by (apply Z.div_unique with (r := Host.doe_of_civil yoe m d); lia).
    replace (era * 146097 + Host.doe_of_civil yoe m d - era * 146097)
      with (Host.doe_of_civil yoe m d) by lia.
    reflexivity. }
  rewrite Hcivil, civil_of_doe_era, Hback. rewrite <- Hy. reflexivity.
Qed.

Ltac month_before :=
  match goal with
  | |- context [Z.pos ?p - 1] =>
      let v := eval vm_compute in (Z.pos p - 1) in
      change (Z.pos p - 1) with v in *
  end.

Ltac day_count :=
  unfold Host.days_from_civil; cbn; Z.div_mod_to_equations; lia.

(** The day before a date is one day earlier on the day count, and is a
    date again. *)
Lemma prev_day_spec (y m d : Z) :
  1 <= m <= 12 -> 1 <= d <= Host.days_in_month y m ->
  match Host.prev_day y m d with
  | (y2, m2, d2) =>
      Host.days_from_civil y2 m2 d2 = Host.days_from_civil y m d - 1
      /\ 1 <= m2 <= 12 /\ 1 <= d2 <= Host.days_in_month y2 m2
  end.
Proof.
  intros Hm Hd. unfold Host.prev_day.
  destruct (Z.ltb_spec 1 d) as [Hd1|Hd1].
  - split; [|split; [exact Hm | lia]].
    unfold Host.days_from_civil. cbv zeta. lia.
  - assert (d = 1) by lia. subst d. clear Hd Hd1.
    assert (Hcases : m = 1 \/ m = 2 \/ m = 3 \/ m = 4 \/ m = 5 \/ m = 6
                     \/ m = 7 \/ m = 8 \/ m = 9 \/ m = 10 \/ m = 11 \/ m = 12)
      by lia.
    destruct Hcases as [-> | [-> | [-> | Hcases]]].
    + change (if 1 =? 1 then (y - 1, 12, 31)
              else (y, 1 - 1, Host.days_in_month y (1 - 1)))
        with (y - 1, 12, 31).
      cbv beta iota. change (Host.days_in_month (y - 1) 12) with 31.
      split; [day_count | lia].
    + change (if 2 =? 1 then (y - 1, 12, 31)
              else (y, 2 - 1, Host.days_in_month y (2 - 1)))
        with (y, 1, 31).
      cbv beta iota. change (Host.days_in_month y 1) with 31.
      split; [day_count | lia].
    + change (if 3 =? 1 then (y - 1, 12, 31)
              else (y, 3 - 1, Host.days_in_month y (3 - 1)))
        with (y, 2, Host.days_in_month y 2).
      cbv beta iota.
      change (Host.days_in_month y 2) with (if Host.is_leap y then 29 else 28).
      unfold Host.is_leap.
      destruct (Z.eqb_spec (y mod 4) 0), (Z.eqb_spec (y mod 100) 0),
        (Z.eqb_spec (y mod 400) 0); cbn [andb orb negb];
        (split; [day_count | lia]).
    + assert (Hprev : Host.days_in_month y (m - 1) =
                      if (m =? 5) || (m =? 7) || (m =? 10) || (m =? 12)
                      then 30 else 31).
      { repeat (destruct Hcases as [-> | Hcases]; [reflexivity|]).
        subst m. reflexivity. }
      rewrite Hprev.
      repeat (destruct Hcases as [-> | Hcases];
              [cbn; month_before; rewrite Hprev;
               split; [day_count | cbn; lia]|]).
      subst m. cbn. month_before. rewrite Hprev.
      split; [day_count | cbn; lia].
Qed.

Lemma digit_val_digit_char (k : Z) :
  0 <= k <= 9 -> Js.digit_val (Host.digit_char k) = Some k.
Proof.
  intros Hk.
  assert (Hcases : k = 0 \/ k = 1 \/ k = 2 \/ k = 3 \/ k = 4 \/ k = 5
                   \/ k = 6 \/ k = 7 \/ k = 8 \/ k = 9) by lia.
  repeat (destruct Hcases as [-> | Hcases]; [reflexivity|]).
  subst k. reflexivity.
Qed.

Lemma digits_val_two (acc n : Z) :
  0 <= n <= 99 -> Js.digits_val acc (Host.two_digits n) = Some (100 * acc + n).
Proof.
  intros Hn. unfold Host.two_digits. cbn [Js.digits_val].
  rewrite !digit_val_digit_char by (Z.div_mod_to_equations; lia).
  f_equal. Z.div_mod_to_equations. lia.
Qed.

Lemma digits_val_four (n : Z) :
  0 <= n <= 9999 -> Js.digits_val 0 (Host.four_digits n) = Some n.
Proof.
  intros Hn. unfold Host.four_digits. cbn [Js.digits_val].
  rewrite !digit_val_digit_char by (Z.div_mod_to_equations; lia).
  rewrite digits_val_two by (Z.div_mod_to_equations; lia).
  f_equal. Z.div_mod_to_equations. lia.
Qed.

(** Parsing the date-only spelling: the day count of the date when the
    fields name a day that exists, the invalid date otherwise. *)
Lemma Date_parse_iso (y m d : Z) :
  0 <= y <= 9999 -> 0 <= m <= 99 -> 0 <= d <= 99 ->
  Host.Date_parse (Host.iso_date y m d) =
  if (1 <=? m) && (m <=? 12) && (1 <=? d) && (d <=? Host.days_in_month y m)
  then Host.TimeValue (Host.days_from_civil y m d * Host.msPerDay)
  else Host.InvalidDate.
Proof.
  intros Hy Hm Hd.
  change (Host.Date_parse (Host.iso_date y m d))
    with (match Js.digits_val 0 (Host.four_digits y),
                Js.digits_val 0 (Host.two_digits m),
                Js.digits_val 0 (Host.two_digits d) with
          | Some y0, Some m0, Some d0 =>
              if (1 <=? m0) && (m0 <=? 12) && (1 <=? d0)
                 && (d0 <=? Host.days_in_month y0 m0)
              then Host.TimeValue (Host.days_from_civil y0 m0 d0 * Host.msPerDay)
              else Host.InvalidDate
          | _, _, _ => Host.InvalidDate
          end).
  rewrite (digits_val_four y Hy), (digits_val_two 0 m Hm),
    (digits_val_two 0 d Hd).
  reflexivity.
Qed.

Lemma Date_parse_valid (y m d : Z) :
  Host.valid_date y m d ->
  Host.Date_parse (Host.iso_date y m d) =
  Host.TimeValue (Host.days_from_civil y m d * Host.msPerDay).
Proof.
  intros (Hy & Hm & Hd).
  assert (Hd99 : d <= 31).
  { unfold Host.days_in_month in Hd.
    repeat (destruct (_ =? _) in Hd; cbn in Hd); try destruct (Host.is_leap y);
      lia. }
  rewrite Date_parse_iso by lia.
  rewrite (proj2 (Z.leb_le 1 m)), (proj2 (Z.leb_le m 12)),
    (proj2 (Z.leb_le 1 d)), (proj2 (Z.leb_le d _)) by lia.
  reflexivity.
Qed.

Lemma append_empty_r (s : string) : s +:+ "" = s.
Proof.
  induction s as [|c s IH]; [reflexivity|].
  change (String c s +:+ "") with (String c (s +:+ "")). f_equal. exact IH.
Qed.

(** The text of a calendar date in the en-GB long form. *)
Lemma long_form_of_day env (days : Z) (local : Z) :
  local / Host.msPerDay = days ->
  forall ms, ms + Host.tzOffsetMinutes env * 60000 = local ->
  Host.Date_toLocaleDateString_enGB_long env (Host.TimeValue ms) =
  match Host.civil_from_days days with
  | (y, m, d) =>
      pretty d +:+ " " +:+ Host.month_name m +:+ " "
      +:+ pretty (Host.year_of_era y)
  end.
Proof.
  intros Hdays ms Hlocal. unfold Host.Date_toLocaleDateString_enGB_long.
  cbv zeta. rewrite Hlocal, Hdays. reflexivity.
Qed.

(** From year 1 on the year of era is the year. *)
Lemma year_of_era_common (y : Z) : 1 <= y -> Host.year_of_era y = y.
Proof.
  intros Hy. unfold Host.year_of_era.
  destruct (Z.leb_spec y 0); [lia | reflexivity].
Qed.

(** X18.  On a host at or east of UTC (offsets up to a day), the end
    date of a lease given as the date-only string of an existing calendar
    day is shown as that same day, month and year, in the order day,
    month name, year. *)
Theorem end_date_east_shows_same_day :
  forall (env : Host.Env) (l : Dashboard.Lease) (y m d : Z),
    Host.valid_date y m d ->
    Dashboard.end_date l = Host.iso_date y m d ->
    0 <= Host.tzOffsetMinutes env < 1440 ->
    React.textContent (Dashboard.expiration env l) =
    pretty d +:+ " " +:+ Host.month_name m +:+ " " +:+ pretty y.
Proof.
  intros env l y m d Hvalid Hdate Htz.
  unfold Dashboard.expiration. rewrite Hdate, (Date_parse_valid _ _ _ Hvalid).
  rewrite (long_form_of_day env (Host.days_from_civil y m d) _
             (local_day_east _ _ Htz) _ eq_refl).
  destruct Hvalid as (Hy & Hm & Hd).
  rewrite (civil_round_trip y m d Hm Hd).
  rewrite (year_of_era_common y) by lia.
  cbn [React.textContent]. rewrite append_empty_r. reflexivity.
Qed.

Lemma end_date_east_shows_same_day_witness :
  React.textContent (Dashboard.expiration Scenario.dubai Scenario.lease_A1)
  = "31 December 2025".
Proof.
  rewrite (end_date_east_shows_same_day Scenario.dubai Scenario.lease_A1
             2025 12 31).
  - reflexivity.
  - unfold Host.valid_date. cbn. lia.
  - reflexivity.
  - cbn. lia.
Defined.

(** X19.  On a host west of UTC (offsets down to a day), the same end
    date is shown as the calendar day before it: the last day of the
    previous month for a first of the month, the 31st of December of the
    previous year for a first of January.  The year printed is the year
    of that day, except for the first of January of year 1, whose day
    before lies in the year before the era and prints as year 1. *)
Theorem end_date_west_shows_day_before :
  forall (env : Host.Env) (l : Dashboard.Lease) (y m d : Z),
    Host.valid_date y m d ->
    Dashboard.end_date l = Host.iso_date y m d ->
    -1440 <= Host.tzOffsetMinutes env < 0 ->
    match Host.prev_day y m d with
    | (y2, m2, d2) =>
        React.textContent (Dashboard.expiration env l) =
        pretty d2 +:+ " " +:+ Host.month_name m2 +:+ " "
        +:+ pretty (if y2 =? 0 then 1 else y2)
        /\ (y2 = 0 <-> (y = 1 /\ m = 1 /\ d = 1))
    end.
Proof.
  intros env l y m d Hvalid Hdate Htz.
  unfold Dashboard.expiration. rewrite Hdate, (Date_parse_valid _ _ _ Hvalid).
  rewrite (long_form_of_day env (Host.days_from_civil y m d - 1) _
             (local_day_west _ _ Htz) _ eq_refl).
  destruct Hvalid as (Hy & Hm & Hd).
  pose proof (prev_day_spec y m d Hm Hd) as Hprev.
  assert (Hyear : match Host.prev_day y m d with
                  | (y2, _, _) =>
                      0 <= y2 /\ (y2 = 0 <-> (y = 1 /\ m = 1 /\ d = 1))
                  end).
  { unfold Host.prev_day.
    destruct (Z.ltb_spec 1 d); [lia|].
    destruct (Z.eqb_spec m 1); lia. }
  destruct (Host.prev_day y m d) as [[y2 m2] d2].
  destruct Hprev as (<- & Hm2 & Hd2). destruct Hyear as [Hy2 Hzero].
  rewrite (civil_round_trip y2 m2 d2 Hm2 Hd2).
  cbn [React.textContent]. rewrite append_empty_r.
  split; [|exact Hzero].
  unfold Host.year_of_era.
  destruct (Z.eqb_spec y2 0) as [-> | Hne]; [reflexivity|].
  destruct (Z.leb_spec y2 0); [lia | reflexivity].
Qed.

Lemma end_date_west_shows_day_before_witness :
  React.textContent (Dashboard.expiration Scenario.new_york Scenario.lease_A1)
  = "30 December 2025".
Proof.
  assert (Hvalid : Host.valid_date 2025 12 31).
  { unfold Host.valid_date. cbn. lia. }
  assert (Htz : -1440 <= Host.tzOffsetMinutes Scenario.new_york < 0).
  { cbn. lia. }
  pose proof (end_date_west_shows_day_before Scenario.new_york
                Scenario.lease_A1 2025 12 31 Hvalid eq_refl Htz) as Hday.
  change (Host.prev_day 2025 12 31) with (2025, 12, 30) in Hday.
  destruct Hday as [Htext _]. rewrite Htext. reflexivity.
Defined.

(** Host.days_in_month never exceeds 31. *)
Lemma days_in_month_le_31 (y m : Z) : Host.days_in_month y m <= 31.
Proof.
  unfold Host.days_in_month.
  repeat (destruct (_ =? _); cbn); try destruct (Host.is_leap y); lia.
Qed.

(** X20.  An end date whose month or day field is out of range (month 00
    or above 12, day 00 or above 31), or that is the empty string, does
    not break the card: the date line reads [Invalid Date], on every
    host. *)
Theorem end_date_invalid_is_shown_as_text :
  forall (env : Host.Env) (l : Dashboard.Lease),
    (Dashboard.end_date l = "" ->
     React.textContent (Dashboard.expiration env l) = "Invalid Date")
    /\ (forall y m d : Z,
          0 <= y <= 9999 -> 0 <= m <= 99 -> 0 <= d <= 99 ->
          m = 0 \/ 12 < m \/ d = 0 \/ 31 < d ->
          Dashboard.end_date l = Host.iso_date y m d ->
          React.textContent (Dashboard.expiration env l) = "Invalid Date").
Proof.
  intros env l. split.
  - intros Hdate. unfold Dashboard.expiration. rewrite Hdate. reflexivity.
  - intros y m d Hy Hm Hd Hbad Hdate.
    unfold Dashboard.expiration. rewrite Hdate, Date_parse_iso by lia.
    assert (Hcheck : (1 <=? m) && (m <=? 12) && (1 <=? d)
                     && (d <=? Host.days_in_month y m) = false).
    { pose proof (days_in_month_le_31 y m).
      destruct (Z.leb_spec 1 m), (Z.leb_spec m 12), (Z.leb_spec 1 d),
        (Z.leb_spec d (Host.days_in_month y m)); try reflexivity; lia. }
    rewrite Hcheck. reflexivity.
Qed.

Lemma end_date_invalid_is_shown_as_text_witness :
  React.textContent
    (Dashboard.expiration Scenario.dubai
       {| Dashboard.id := 3; Dashboard.unit_name := "B7";
          Dashboard.rent_amount := Dashboard.RentNumber 90000;
          Dashboard.end_date := "2025-13-01";
          Dashboard.contract_url := None |})
  = "Invalid Date".
Proof.
  destruct (end_date_invalid_is_shown_as_text Scenario.dubai
              {| Dashboard.id := 3; Dashboard.unit_name := "B7";
                 Dashboard.rent_amount := Dashboard.RentNumber 90000;
                 Dashboard.end_date := "2025-13-01";
                 Dashboard.contract_url := None |}) as [_ Hfields].
  apply (Hfields 2025 13 1); try lia. reflexivity.
Defined.

(* ===================================================================== *)
(** ** Pending request and routes *)
(* ===================================================================== *)

(** X21.  While the GET is pending, that is after the gate let the visit
    through and before any reply, the screen shows the loading text and
    nothing else: no sign-out control is on it, and a click where the
    button would be changes nothing. *)
Theorem dashboard_pending_shows_loading_only :
  forall (env : Host.Env) (w : World) (token : string),
    storage w !! "token" = Some token ->
    token <> "" ->
    let gate := Dashboard.activate env w Dashboard.initial in
    result_of gate = Js.Normal true
    /\ network (world_of gate) =
       network w ++ [Dashboard.dashboard_request env (Some token)]
    /\ Dashboard.view env (state_of gate) =
       Some (React.Elem "div" [] [React.Text "Loading your portal..."])
    /\ Dashboard.phase (state_of gate) = Dashboard.Loading
    /\ Dashboard.offers env React.SignOut (state_of gate) = false
    /\ Dashboard.click_sign_out env (world_of gate) (state_of gate)
       = (Js.Normal tt, world_of gate, state_of gate).
Proof.
  intros env w token Hslot Hne gate. subst gate.
  rewrite activate_present; rewrite Hslot;
    [|apply credential_truthy, Hne].
  repeat split.
Qed.

Lemma dashboard_pending_shows_loading_only_witness :
  Dashboard.phase
    (state_of (Dashboard.activate Scenario.dubai (Scenario.signed_in "abc")
                 Dashboard.initial))
  = Dashboard.Loading.
Proof.
  destruct (dashboard_pending_shows_loading_only Scenario.dubai
              (Scenario.signed_in "abc") "abc")
    as (_ & _ & _ & Hphase & _).
  - reflexivity.
  - discriminate.
  - exact Hphase.
Defined.

(** X22.  Every navigation the portal performs goes to a path of the
    route table: a submission navigates, if at all, to the dashboard's
    route, and a dashboard visit or a sign-out, if at all, to the login
    screen's route; no handler ever navigates anywhere else. *)
Theorem navigations_stay_on_the_route_table :
  forall (env : Host.Env) (w : World),
    (forall (reply : Reply Js.Value) (st : Login.State),
        exists extra,
          navigations (world_of (Login.handleLogin reply w st))
          = navigations w ++ extra
          /\ Forall (fun p => App.element App.routes p
                              = Some App.DashboardScreen) extra)
    /\ (forall reply : Reply Dashboard.TenantData,
           exists extra,
             navigations (world_of (Dashboard.run env reply w))
             = navigations w ++ extra
             /\ Forall (fun p => App.element App.routes p
                                 = Some App.LoginScreen) extra)
    /\ (forall st : Dashboard.State,
           exists extra,
             navigations (world_of (Dashboard.click_sign_out env w st))
             = navigations w ++ extra
             /\ Forall (fun p => App.element App.routes p
                                 = Some App.LoginScreen) extra).
Proof.
  intros env w. split; [|split].
  - intros [data|f] st.
    + destruct (handleLogin_2xx data w st) as [(v & _ & _ & ->)| ->].
      * exists ["/dashboard"]. split; [reflexivity|].
        repeat constructor.
      * exists []. split; [symmetry; apply app_nil_r | constructor].
    + rewrite handleLogin_rejected.
      exists []. split; [symmetry; apply app_nil_r | constructor].
  - intros reply. rewrite run_cases.
    destruct (Js.truthy _).
    + destruct reply as [d|f].
      * rewrite settle_resolved.
        exists []. split; [symmetry; apply app_nil_r | constructor].
      * rewrite settle_rejected. destruct (bool_decide _).
        -- exists ["/"]. split; [reflexivity | repeat constructor].
        -- exists []. split; [symmetry; apply app_nil_r | constructor].
    + exists ["/"]. split; [reflexivity | repeat constructor].
  - intros st. unfold Dashboard.click_sign_out, get_state.
    cbv [mbind M_bind].
    destruct (Dashboard.offers env React.SignOut st).
    + rewrite sign_out_run.
      exists ["/"]. split; [reflexivity | repeat constructor].
    + exists []. split; [symmetry; apply app_nil_r | constructor].
Qed.
